(** * Batched bulk-load pipeline: a shallow embedding and its properties

    The development follows the Python sources of the repository:

    - [optimized_loader.py]   : [OptimizedBulkLoader] (module [Loader]);
    - [cargador_optimizado.py]: [OptimizedMongoLoader] (module [Cargador]);
    - [src/mongodb_connection.py] and [main.py]: [MongoDBConnection] and
      [ZipToMongoProcessor] (module [Driver]).

    Python integers are unbounded, hence [Z].  Lists are [list].  The store
    behind [collection.insert_many] and the wall clock are external
    collaborators: they are taken as arbitrary functions, and every call to
    the store is recorded in a ghost log so that statements can speak about
    what was submitted. *)

From Stdlib Require Import ZArith List String Bool Lia QArith.
Import ListNotations.

Local Open Scope string_scope.
Local Open Scope list_scope.
Local Open Scope Z_scope.

(** ** Python exceptions and results *)

Inductive exn : Type :=
| ValueError (msg : string)
| ZeroDivisionError (msg : string)
| AttributeError (msg : string)
| Exception (msg : string).

(** [str(e)] *)
Definition str (e : exn) : string :=
  match e with
  | ValueError m | ZeroDivisionError m | AttributeError m | Exception m => m
  end.

Inductive Exc (A : Type) : Type :=
| Ret (a : A)
| Raise (e : exn).
Arguments Ret {A} a.
Arguments Raise {A} e.

Definition bind {A B} (c : Exc A) (k : A -> Exc B) : Exc B :=
  match c with
  | Ret a => k a
  | Raise e => Raise e
  end.

Notation "x <- c ;; k" := (bind c (fun x => k))
  (at level 61, c at next level, right associativity).

Definition raises {A} (c : Exc A) : bool :=
  match c with Ret _ => false | Raise _ => true end.

(** ** Python built-ins used by the loaders *)

(** [len(l)] *)
Definition len {A} (l : list A) : Z := Z.of_nat (List.length l).

(** Number of elements of [range(start, stop, step)] for [step <> 0]. *)
Definition range_len (start stop step : Z) : Z :=
  if 0 <? step
  then (if start <? stop then (stop - start - 1) / step + 1 else 0)
  else (if stop <? start then (start - stop - 1) / (- step) + 1 else 0).

(** [range(start, stop, step)]; a zero step raises [ValueError]. *)
Definition py_range (start stop step : Z) : Exc (list Z) :=
  if step =? 0
  then Raise (ValueError "range() arg 3 must not be zero")
  else Ret (map (fun k => start + Z.of_nat k * step)
                (seq 0 (Z.to_nat (range_len start stop step)))).

(** Slice bounds are clamped the way Python does: a negative bound counts
    from the end, and both bounds are cut to [0 .. len]. *)
Definition clamp_index (n i : Z) : Z :=
  if i <? 0 then Z.max 0 (i + n) else Z.min i n.

(** [l[i:j]] *)
Definition py_slice {A} (l : list A) (i j : Z) : list A :=
  let lo := clamp_index (len l) i in
  let hi := clamp_index (len l) j in
  firstn (Z.to_nat (hi - lo)) (skipn (Z.to_nat lo) l).

(** [a // b] on integers: floor division, [ZeroDivisionError] on [b = 0].
    [Z.div] rounds towards minus infinity for either sign of the divisor, as
    Python does. *)
Definition py_floordiv (a b : Z) : Exc Z :=
  if b =? 0
  then Raise (ZeroDivisionError "integer division or modulo by zero")
  else Ret (a / b).

(** [a / b] on numbers: true division, [ZeroDivisionError] on [b == 0].
    Floats are read as the rationals they denote; the test [b == 0] is exact
    under that reading, the quotient is the exact one (not rounded). *)
Definition py_truediv (a b : Q) : Exc Q :=
  if Qeq_bool b 0
  then Raise (ZeroDivisionError "float division by zero")
  else Ret (a / b)%Q.

(** [x > 0] on numbers *)
Definition Qpositive (x : Q) : bool := negb (Qle_bool x 0).

(** ** Batch partitioner: [OptimizedBulkLoader.chunk_documents] *)

Module Partitioner.

(** [for i in range(0, len(documents), batch_size):
       yield documents[i:i + batch_size]]

    The generator is pure, so the sequence of batches it yields is given
    as a list; the [ValueError] of [range] surfaces when the generator is
    first advanced. *)
Definition chunk_documents {A} (batch_size : Z) (documents : list A)
  : Exc (list (list A)) :=
  starts <- py_range 0 (len documents) batch_size ;;
  Ret (map (fun i => py_slice documents i (i + batch_size)) starts).

(** [(len(documents) + batch_size - 1) // batch_size], the number of
    batches announced to the progress bar. *)
Definition ceil_div (n b : Z) : Z := (n + b - 1) / b.

(** Length of the last batch when there is one. *)
Definition remainder (n b : Z) : Z :=
  if n mod b =? 0 then b else n mod b.

End Partitioner.

(** ** The store, the connection and the clock, as the program sees them *)

Module Mongo.

(** One entry of [details['writeErrors']] of a [BulkWriteError]. *)
Record WriteError : Type := mkWriteError {
  index : Z;
  code : Z;
  errmsg : string
}.

(** [BulkWriteError.details]: a dict read with
    [.get('nInserted', 0)] and [.get('writeErrors', [])], so either key
    may be absent. *)
Record BulkWriteDetails : Type := mkDetails {
  nInserted : option Z;
  writeErrors : option (list WriteError)
}.

(** What one [collection.insert_many(batch, **options)] does: it returns
    a result carrying [inserted_ids], raises [BulkWriteError], or raises
    another subclass of [Exception] (transport failure, timeout, ...). *)
Inductive Reply : Type :=
| InsertManyResult (inserted_ids : list Z)
| RaisesBulkWriteError (details : BulkWriteDetails)
| RaisesException (e : exn).

(** Ghost record of the other operations that reach the network. *)
Inductive NetEvent : Type :=
| MongoClientCalled (uri : string)
| Pinged
| CollStatsRead
| ClientClosed.

(** The attributes of [MongoDBConnection] (the global
    [mongo_connection]).  A client is identified by its URI, a database
    and a collection handle by their names. *)
Record MongoDBConnection : Type := mkConnection {
  client : option string;
  database : option string;
  collection : option string;
  mongodb_uri : option string;
  database_name : string;
  collection_name : string
}.

Section World.
Variables (Doc St : Type).

(** Ghost record of one call to [insert_many]. *)
Record Call : Type := mkCall {
  call_batch : list Doc;
  call_ordered : bool;
  call_bypass : bool;
  call_reply : Reply
}.

(** The store: from its state and the arguments of [insert_many] to the
    reply and its next state. *)
Definition InsertMany : Type :=
  St -> list Doc -> bool -> bool -> Reply * St.

(** The global connection object, the state of the store, the ghost
    logs of the writes and of the other network operations made so far,
    and the number of clock readings taken so far. *)
Record World : Type := mkWorld {
  conn : MongoDBConnection;
  server : St;
  calls : list Call;
  net : list NetEvent;
  reads : nat
}.

(** [datetime.now()] / [time.time()]: the next reading of the clock. *)
Definition now (clock : nat -> Q) (w : World) : Q * World :=
  (clock (reads w),
   mkWorld (conn w) (server w) (calls w) (net w) (S (reads w))).

(** One [collection.insert_many(batch, ordered=..., bypass_...=...)]
    on the store, logged. *)
Definition call_insert_many (insert_many : InsertMany)
    (batch : list Doc) (ordered bypass : bool) (w : World)
  : Reply * World :=
  let '(reply, s') := insert_many (server w) batch ordered bypass in
  (reply,
   mkWorld (conn w) s'
           (calls w ++ [mkCall batch ordered bypass reply])
           (net w) (reads w)).

Definition emit (ev : NetEvent) (w : World) : World :=
  mkWorld (conn w) (server w) (calls w) (net w ++ [ev]) (reads w).

Definition set_conn (c : MongoDBConnection) (w : World) : World :=
  mkWorld c (server w) (calls w) (net w) (reads w).

End World.

Arguments mkCall {Doc} _ _ _ _.
Arguments call_batch {Doc} _.
Arguments call_ordered {Doc} _.
Arguments call_bypass {Doc} _.
Arguments call_reply {Doc} _.
Arguments mkWorld {Doc St} _ _ _ _ _.
Arguments conn {Doc St} _.
Arguments server {Doc St} _.
Arguments calls {Doc St} _.
Arguments net {Doc St} _.
Arguments reads {Doc St} _.
Arguments now {Doc St} _ _.
Arguments call_insert_many {Doc St} _ _ _ _ _.
Arguments emit {Doc St} _ _.
Arguments set_conn {Doc St} _ _.

(** Per-call classification, read off the ghost log. *)
Definition fully_inserted {Doc} (c : Call Doc) : bool :=
  match call_reply c with InsertManyResult _ => true | _ => false end.

Definition hard_failed {Doc} (c : Call Doc) : bool :=
  match call_reply c with RaisesException _ => true | _ => false end.

End Mongo.

(** ** [optimized_loader.py]: [OptimizedBulkLoader] *)

Module Loader.
Import Mongo Partitioner.

(** Elements of the [errors] list: an entry of [writeErrors] taken from
    the store, the dict [{"error": str(e), "batch_size": len(batch)}] of
    a batch that failed as a whole, or the bare [str(e)] of the outer
    handler. *)
Inductive ErrorEntry : Type :=
| WriteErrorEntry (w : WriteError)
| BatchError (error : string) (batch_size : Z)
| Message (s : string).

(** [self.stats] *)
Record Stats : Type := mkStats {
  total_processed : Z;
  total_inserted : Z;
  total_errors : Z;
  batches_processed : Z;
  start_time : option Q;
  end_time : option Q
}.

Record OptimizedBulkLoader : Type := mkLoader {
  batch_size : Z;
  stats : Stats
}.

(** [OptimizedBulkLoader.__init__] *)
Definition init (batch_size : Z) : OptimizedBulkLoader :=
  mkLoader batch_size (mkStats 0 0 0 0 None None).

(** The dict returned by [bulk_insert_optimized]; the key
    ["batches_processed"] is present on the normal return only. *)
Record Result : Type := mkResult {
  inserted_count : Z;
  errors : list ErrorEntry;
  result_batches_processed : option Z
}.

(** The locals [total_inserted] and [errors] of [bulk_insert_optimized]. *)
Record Locals : Type := mkLocals {
  loc_total_inserted : Z;
  loc_errors : list ErrorEntry
}.

Definition set_start_time (t : Q) (self : OptimizedBulkLoader) :=
  let s := stats self in
  mkLoader (batch_size self)
    (mkStats (total_processed s) (total_inserted s) (total_errors s)
             (batches_processed s) (Some t) (end_time s)).

Definition incr_batches_processed (self : OptimizedBulkLoader) :=
  let s := stats self in
  mkLoader (batch_size self)
    (mkStats (total_processed s) (total_inserted s) (total_errors s)
             (batches_processed s + 1) (start_time s) (end_time s)).

(** [self.stats["total_inserted"] = total_inserted;
     self.stats["total_errors"] = len(errors);
     self.stats["end_time"] = datetime.now()] *)
Definition set_totals (loc : Locals) (t : Q) (self : OptimizedBulkLoader) :=
  let s := stats self in
  mkLoader (batch_size self)
    (mkStats (total_processed s) (loc_total_inserted loc)
             (len (loc_errors loc)) (batches_processed s)
             (start_time s) (Some t)).

(** [d.get(key, default)] *)
Definition get {A} (o : option A) (default : A) : A :=
  match o with Some a => a | None => default end.

Section WithStore.
Variables (Doc St : Type).
Variable insert_many : InsertMany Doc St.
Variable clock : nat -> Q.

(** Body of [for batch in tqdm(self.chunk_documents(documents), ...)]:
    one [insert_many] inside [try], with the two handlers. *)
Definition loop_body (ordered bypass_validation : bool)
    (st : Locals * OptimizedBulkLoader * World Doc St)
    (batch : list Doc)
  : Locals * OptimizedBulkLoader * World Doc St :=
  let '(loc, self, w) := st in
  match collection (conn w) with
  | None =>
      (* attribute lookup on [None]: caught by [except Exception] *)
      let e := AttributeError
                 "'NoneType' object has no attribute 'insert_many'" in
      (mkLocals (loc_total_inserted loc)
                (loc_errors loc ++ [BatchError (str e) (len batch)]),
       self, w)
  | Some _ =>
      let '(reply, w) :=
        call_insert_many insert_many batch ordered bypass_validation w in
      match reply with
      | InsertManyResult inserted_ids =>
          (mkLocals (loc_total_inserted loc + len inserted_ids)
                    (loc_errors loc),
           incr_batches_processed self, w)
      | RaisesBulkWriteError details =>
          (mkLocals
             (loc_total_inserted loc + get (nInserted details) 0)
             (loc_errors loc ++
                map WriteErrorEntry (get (writeErrors details) [])),
           self, w)
      | RaisesException e =>
          (mkLocals (loc_total_inserted loc)
                    (loc_errors loc ++ [BatchError (str e) (len batch)]),
           self, w)
      end
  end.

(** [OptimizedBulkLoader.bulk_insert_optimized] *)
Definition bulk_insert_optimized (self : OptimizedBulkLoader)
    (documents : list Doc) (ordered bypass_validation : bool)
    (w : World Doc St)
  : Result * OptimizedBulkLoader * World Doc St :=
  match documents with
  | [] => (mkResult 0 [] None, self, w)
  | _ :: _ =>
      let '(t0, w) := now clock w in
      let self := set_start_time t0 self in
      let failed (e : exn) := mkResult 0 [Message (str e)] None in
      match collection (conn w) with
      | None => (failed (Exception "No hay conexión a MongoDB"), self, w)
      | Some _ =>
          (* arguments of [tqdm]: the generator object, then [total] *)
          match py_floordiv (len documents + batch_size self - 1)
                            (batch_size self) with
          | Raise e => (failed e, self, w)
          | Ret _ =>
              match chunk_documents (batch_size self) documents with
              | Raise e => (failed e, self, w)
              | Ret batches =>
                  let '(loc, self, w) :=
                    fold_left (loop_body ordered bypass_validation)
                              batches (mkLocals 0 [], self, w) in
                  let '(t1, w) := now clock w in
                  let self := set_totals loc t1 self in
                  (mkResult (loc_total_inserted loc) (loc_errors loc)
                            (Some (batches_processed (stats self))),
                   self, w)
              end
          end
      end
  end.

End WithStore.

Arguments loop_body {Doc St} _ _ _ _ _.
Arguments bulk_insert_optimized {Doc St} _ _ _ _ _ _ _.

(** The dict built by [get_performance_stats] when both time stamps are
    set. *)
Record Performance : Type := mkPerformance {
  perf_total_inserted : Z;
  perf_total_errors : Z;
  perf_batches_processed : Z;
  duration_seconds : Q;
  documents_per_second : Q;
  batch_size_used : Z;
  average_batch_time : Q
}.

(** [OptimizedBulkLoader.get_performance_stats].  [round] is Python's
    built-in on floats, kept abstract; a time stamp is truthy exactly
    when it is not [None]. *)
Definition get_performance_stats (round : Q -> Z -> Q)
    (self : OptimizedBulkLoader) : Exc (Performance + Stats) :=
  let s := stats self in
  match start_time s, end_time s with
  | Some t0, Some t1 =>
      let duration := (t1 - t0)%Q in
      docs_per_second <-
        (if Qpositive duration
         then py_truediv (inject_Z (total_inserted s)) duration
         else Ret 0%Q) ;;
      average <-
        (if 0 <? batches_processed s
         then q <- py_truediv duration (inject_Z (batches_processed s)) ;;
              Ret (round q 3)
         else Ret 0%Q) ;;
      Ret (inl (mkPerformance (total_inserted s) (total_errors s)
                  (batches_processed s) duration
                  (round docs_per_second 2) (batch_size self) average))
  | _, _ => Ret (inr s)
  end.

End Loader.

(** ** [cargador_optimizado.py]: [OptimizedMongoLoader] *)

Module Cargador.
Import Mongo.

(** The values shown by one progress line. *)
Record Progress : Type := mkProgress {
  progress : Q;
  shown_inserted : Z;
  rate : Q
}.

Section WithStore.
Variables (Doc St : Type).
Variable insert_many : InsertMany Doc St.
Variable clock : nat -> Q.

(** Body of [for i in range(0, total_docs, batch_size)].  Everything
    after [insert_many] sits in the same [try]; any [Exception] there
    is printed and the loop goes on ([continue]). *)
Definition loop_body (documents : list Doc) (batch_size : Z)
    (start_time : Q)
    (st : Z * list Progress * World Doc St) (i : Z)
  : Z * list Progress * World Doc St :=
  let '(inserted_count, out, w) := st in
  let total_docs := len documents in
  let batch := py_slice documents i (i + batch_size) in
  let '(reply, w) := call_insert_many insert_many batch false true w in
  match reply with
  | InsertManyResult inserted_ids =>
      let inserted_count := inserted_count + len inserted_ids in
      match py_truediv (inject_Z (i + len batch)) (inject_Z total_docs)
      with
      | Raise _ => (inserted_count, out, w)
      | Ret q =>
          let progress := (q * 100)%Q in
          let '(t, w) := now clock w in
          let elapsed := (t - start_time)%Q in
          match (if Qpositive elapsed
                 then py_truediv (inject_Z inserted_count) elapsed
                 else Ret 0%Q)
          with
          | Raise _ => (inserted_count, out, w)
          | Ret rate =>
              (inserted_count,
               out ++ [mkProgress progress inserted_count rate], w)
          end
      end
  | RaisesBulkWriteError _ | RaisesException _ =>
      (inserted_count, out, w)
  end.

(** [OptimizedMongoLoader.optimized_bulk_insert]: the returned
    [inserted_count] or the exception that escapes, the progress lines
    shown, and the world afterwards. *)
Definition optimized_bulk_insert (documents : list Doc) (batch_size : Z)
    (w : World Doc St)
  : Exc Z * list Progress * World Doc St :=
  let total_docs := len documents in
  let '(start_time, w) := now clock w in
  match py_range 0 total_docs batch_size with
  | Raise e => (Raise e, [], w)
  | Ret starts =>
      let '(inserted_count, out, w) :=
        fold_left (loop_body documents batch_size start_time)
                  starts (0, [], w) in
      let '(t, w) := now clock w in
      let total_time := (t - start_time)%Q in
      match py_truediv (inject_Z inserted_count) total_time with
      | Raise e => (Raise e, out, w)
      | Ret final_rate => (Ret inserted_count, out, w)
      end
  end.

End WithStore.

Arguments loop_body {Doc St} _ _ _ _ _ _ _.
Arguments optimized_bulk_insert {Doc St} _ _ _ _ _.

End Cargador.

(** ** [src/mongodb_connection.py] and [main.py] *)

Module Driver.
Import Mongo.

(** [MongoDBConnection.__init__]: the three settings come from the
    environment ([os.getenv]). *)
Definition init (getenv : string -> option string) : MongoDBConnection :=
  let getenv_default name default :=
    match getenv name with Some v => v | None => default end in
  mkConnection None None None
    (getenv "MONGODB_URI")
    (getenv_default "DATABASE_NAME" "zip_uploads")
    (getenv_default "COLLECTION_NAME" "files").

(** [not self.mongodb_uri]: [None] and the empty string are falsy. *)
Definition falsy (o : option string) : bool :=
  match o with
  | None => true
  | Some s => match s with EmptyString => true | _ => false end
  end.

(** [self.stats] of [ZipToMongoProcessor] *)
Record Stats : Type := mkStats {
  total_zips_processed : Z;
  total_files_uploaded : Z;
  total_errors : Z;
  start_time : option Q;
  end_time : option Q;
  failed_zips : list (string * string);
  uploaded_files : list Z
}.

(** [ZipToMongoProcessor.__init__] *)
Definition init_stats : Stats := mkStats 0 0 0 None None [] [].

(** The dict returned by [process_single_zip]. *)
Record Upload : Type := mkUpload {
  zip_path : string;
  files_uploaded : Z;
  inserted_ids : list Z
}.

(** The two lines [process_single_zip] prints inside its [try]: the
    archive being processed, and the number of files loaded from it. *)
Inductive Output : Type :=
| Procesando (zip_path : string)
| Cargados (n : Z) (zip_path : string).

Section WithStore.
Variables (Doc St : Type).
Variable insert_many : InsertMany Doc St.
Variable clock : nat -> Q.
(** [MongoClient(uri, ...)] and [client.admin.command('ping')]: either
    may raise. *)
Variable mongo_client : string -> option exn.
Variable ping : St -> option exn.
(** [ZipExtractor.validate_zip_file] and [ZipExtractor.process_zip_file]
    (which catches everything and returns the processed files or
    [None]); [file_data.update(zip_metadata)], given the path of the
    archive and the two time stamps read for the metadata. *)
Variable validate_zip_file : string -> bool.
Variable process_zip_file : string -> option (list Doc).
Variable update : string -> Q -> Q -> Doc -> Doc.
(** [print(...)] of a line of [process_single_zip]: it can raise (the
    console may refuse a character of the line). *)
Variable py_print : Output -> option exn.

(** [MongoDBConnection.connect] *)
Definition connect (w : World Doc St) : bool * World Doc St :=
  let self := conn w in
  if falsy (mongodb_uri self) then (false, w)
  else
    let uri := match mongodb_uri self with Some u => u | None => "" end in
    let w := emit (MongoClientCalled uri) w in
    match mongo_client uri with
    | Some _ => (false, w)
    | None =>
        let self := mkConnection (Some uri) (database self)
                      (collection self) (mongodb_uri self)
                      (database_name self) (collection_name self) in
        let w := set_conn self w in
        let w := emit Pinged w in
        match ping (server w) with
        | Some _ => (false, w)
        | None =>
            let self := mkConnection (client self)
                          (Some (database_name self))
                          (Some (collection_name self))
                          (mongodb_uri self)
                          (database_name self) (collection_name self) in
            (true, set_conn self w)
        end
    end.

(** [MongoDBConnection.disconnect] *)
Definition disconnect (w : World Doc St) : World Doc St :=
  match client (conn w) with
  | Some _ => emit ClientClosed w
  | None => w
  end.

(** [MongoDBConnection.get_collection_stats]; the figures are only
    shown. *)
Definition get_collection_stats (w : World Doc St) : World Doc St :=
  match collection (conn w) with
  | None => w
  | Some _ => emit CollStatsRead w
  end.

(** [MongoDBConnection.insert_multiple_files] *)
Definition insert_multiple_files (files_data : list Doc)
    (w : World Doc St) : option (list Z) * World Doc St :=
  match collection (conn w) with
  | None => (None, w)
  | Some _ =>
      match files_data with
      | [] => (Some [], w)
      | _ :: _ =>
          let '(reply, w) :=
            call_insert_many insert_many files_data true false w in
          match reply with
          | InsertManyResult ids => (Some ids, w)
          | RaisesBulkWriteError _ | RaisesException _ => (None, w)
          end
      end
  end.

(** [ZipToMongoProcessor.validate_zip_files] *)
Definition validate_zip_files (zip_paths : list string) (stats : Stats)
  : list string * Stats :=
  fold_left
    (fun '(valid_zips, stats) zip_path =>
       if validate_zip_file zip_path
       then (valid_zips ++ [zip_path], stats)
       else (valid_zips,
             mkStats (total_zips_processed stats)
               (total_files_uploaded stats) (total_errors stats)
               (start_time stats) (end_time stats)
               (failed_zips stats ++
                  [(zip_path, "Archivo ZIP inválido o corrupto")])
               (uploaded_files stats)))
    zip_paths ([], stats).

(** [ZipToMongoProcessor.process_single_zip].  The two prints are the
    statements inside the [try] that can raise; the second one comes
    after the stats were updated.  The [except Exception] clause appends
    the archive and [str(e)] to [failed_zips] and returns [None]. *)
Definition process_single_zip (zip_path : string)
    (st : Stats * World Doc St) : option Upload * (Stats * World Doc St) :=
  let '(stats, w) := st in
  let handler (e : exn) (stats : Stats) (w : World Doc St) :=
    (@None Upload,
     (mkStats (total_zips_processed stats) (total_files_uploaded stats)
        (total_errors stats) (start_time stats) (end_time stats)
        (failed_zips stats ++ [(zip_path, str e)])
        (uploaded_files stats), w)) in
  match py_print (Procesando zip_path) with
  | Some e => handler e stats w
  | None =>
      match process_zip_file zip_path with
      | None => (None, (stats, w))
      | Some processed_files =>
          let '(t_id, w) := now clock w in
          let '(t_date, w) := now clock w in
          let documents :=
            map (update zip_path t_id t_date) processed_files in
          match documents with
          | [] => (Some (mkUpload zip_path 0 []), (stats, w))
          | _ :: _ =>
              let '(ids, w) := insert_multiple_files documents w in
              match ids with
              | Some ((_ :: _) as inserted_ids) =>
                  let stats :=
                    mkStats (total_zips_processed stats)
                      (total_files_uploaded stats + len inserted_ids)
                      (total_errors stats)
                      (start_time stats) (end_time stats)
                      (failed_zips stats)
                      (uploaded_files stats ++ inserted_ids) in
                  match py_print (Cargados (len inserted_ids) zip_path) with
                  | Some e => handler e stats w
                  | None =>
                      (Some (mkUpload zip_path (len inserted_ids)
                               inserted_ids),
                       (stats, w))
                  end
              | Some [] | None => (None, (stats, w))
              end
          end
      end
  end.

(** [ZipToMongoProcessor.process_zip_files] *)
Definition process_zip_files (zip_paths : list string)
    (st : Stats * World Doc St) : Stats * World Doc St :=
  let '(stats, w) := st in
  let '(t0, w) := now clock w in
  let stats := mkStats (total_zips_processed stats)
                 (total_files_uploaded stats) (total_errors stats)
                 (Some t0) (end_time stats)
                 (failed_zips stats) (uploaded_files stats) in
  let '(valid_zips, stats) := validate_zip_files zip_paths stats in
  match valid_zips with
  | [] => (stats, w)
  | _ :: _ =>
      let '(stats, w) :=
        fold_left
          (fun st zip_path =>
             let '(result, (stats, w)) := process_single_zip zip_path st in
             match result with
             | Some _ =>
                 (mkStats (total_zips_processed stats + 1)
                    (total_files_uploaded stats) (total_errors stats)
                    (start_time stats) (end_time stats)
                    (failed_zips stats) (uploaded_files stats), w)
             | None =>
                 (mkStats (total_zips_processed stats)
                    (total_files_uploaded stats) (total_errors stats + 1)
                    (start_time stats) (end_time stats)
                    (failed_zips stats) (uploaded_files stats), w)
             end)
          valid_zips (stats, w) in
      let '(t1, w) := now clock w in
      (mkStats (total_zips_processed stats)
         (total_files_uploaded stats) (total_errors stats)
         (start_time stats) (Some t1)
         (failed_zips stats) (uploaded_files stats), w)
  end.

(** [ZipToMongoProcessor.run]; the [finally] clause disconnects on
    every path. *)
Definition run (zip_paths : list string) (st : Stats * World Doc St)
  : bool * (Stats * World Doc St) :=
  let '(stats, w) := st in
  let '(connected, w) := connect w in
  if negb connected then (false, (stats, disconnect w))
  else
    let w := get_collection_stats w in
    let '(stats, w) := process_zip_files zip_paths (stats, w) in
    (0 <? total_zips_processed stats, (stats, disconnect w)).

(** [main], from the list of archives found on: exit code 1 when there
    is none, otherwise a fresh processor is run and the exit code is
    [0 if success else 1]. *)
Definition main (zip_files : list string) (w : World Doc St)
  : Z * World Doc St :=
  match zip_files with
  | [] => (1, w)
  | _ :: _ =>
      let '(success, (_, w)) := run zip_files (init_stats, w) in
      (if success then 0 else 1, w)
  end.

End WithStore.

Arguments connect {Doc St} _ _ _.
Arguments disconnect {Doc St} _.
Arguments run {Doc St} _ _ _ _ _ _ _ _ _ _.
Arguments main {Doc St} _ _ _ _ _ _ _ _ _ _.

End Driver.

(** ** Simulated stores

    Stores used to run the loaders on concrete inputs.  Their state is the
    number of calls served so far. *)

Module Simulated.
Import Mongo.

Definition fresh_ids (n : nat) : list Z :=
  map Z.of_nat (seq 0 n).

(** Accepts every document of every batch. *)
Definition accept_all {Doc} : InsertMany Doc nat :=
  fun s batch _ _ => (InsertManyResult (fresh_ids (List.length batch)), S s).

Definition rejection (i : Z) : WriteError :=
  mkWriteError i 11000 "duplicate key".

(** Rejects the items of a batch whose index is in [bad].  Unordered:
    the other items are inserted and every rejected index is reported.
    Ordered: the store stops at the first rejected index. *)
Definition reject_at {Doc} (bad : list Z) : InsertMany Doc nat :=
  fun s batch ordered _ =>
    let hit := filter (fun i => existsb (Z.eqb i) bad)
                      (map Z.of_nat (seq 0 (List.length batch))) in
    match hit with
    | [] => (InsertManyResult (fresh_ids (List.length batch)), S s)
    | first :: _ =>
        if ordered
        then (RaisesBulkWriteError
                (mkDetails (Some first) (Some [rejection first])), S s)
        else (RaisesBulkWriteError
                (mkDetails (Some (len batch - len hit))
                           (Some (map rejection hit))), S s)
    end.

(** Raises a transport failure on the [k]-th call (counted from 1) and
    accepts every other batch. *)
Definition transport_failure_on {Doc} (k : nat) : InsertMany Doc nat :=
  fun s batch _ _ =>
    if Nat.eqb (S s) k
    then (RaisesException (Exception "connection closed"), S s)
    else (InsertManyResult (fresh_ids (List.length batch)), S s).

(** A connected world: fresh store, empty logs. *)
Definition connected {Doc} : World Doc nat :=
  mkWorld (mkConnection (Some "mongodb://localhost") (Some "zip_uploads")
                        (Some "files") (Some "mongodb://localhost")
                        "zip_uploads" "files")
          0%nat [] [] 0%nat.

(** A world whose connection object was built from an environment. *)
Definition initial {Doc} (getenv : string -> option string)
  : World Doc nat :=
  mkWorld (Driver.init getenv) 0%nat [] [] 0%nat.

(** A clock that advances by one second at every reading, and one that
    is too coarse to advance at all during a run. *)
Definition ticking (n : nat) : Q := inject_Z (Z.of_nat n).
Definition frozen (n : nat) : Q := 0%Q.

(** Documents numbered [0 .. n-1]. *)
Definition numbered (n : nat) : list Z := map Z.of_nat (seq 0 n).

End Simulated.

(** ** Reading the ghost log

    What the store was asked and what it answered, independently of any
    loader: the log of serving a sequence of batches one after the other,
    and what each logged call contributes. *)

Module Log.
Import Mongo Loader.

Section Serve.
Variables (Doc St : Type).
Variable insert_many : InsertMany Doc St.

(** The calls logged, and the final state of the store, when [batches]
    are submitted in order from state [s]. *)
Fixpoint serve (ordered bypass : bool) (s : St)
    (batches : list (list Doc)) : list (Call Doc) * St :=
  match batches with
  | [] => ([], s)
  | batch :: rest =>
      let '(reply, s') := insert_many s batch ordered bypass in
      let '(log, s'') := serve ordered bypass s' rest in
      (mkCall batch ordered bypass reply :: log, s'')
  end.
End Serve.

Arguments serve {Doc St} _ _ _ _ _.

(** Documents a call reports as inserted. *)
Definition call_inserted {Doc} (c : Call Doc) : Z :=
  match call_reply c with
  | InsertManyResult inserted_ids => len inserted_ids
  | RaisesBulkWriteError details => get (nInserted details) 0
  | RaisesException _ => 0
  end.

(** Error entries a call gives rise to. *)
Definition call_errors {Doc} (c : Call Doc) : list ErrorEntry :=
  match call_reply c with
  | InsertManyResult _ => []
  | RaisesBulkWriteError details =>
      map WriteErrorEntry (get (writeErrors details) [])
  | RaisesException e => [BatchError (str e) (len (call_batch c))]
  end.

Definition sum (l : list Z) : Z := fold_right Z.add 0 l.

End Log.

(** ** [optimized_loader.py]: [load_json_files_optimized] *)

Module Files.
Import Mongo Loader.

(** What [json.load(f)] gives: a list (each item a dict or something
    else), a single dict, or any other JSON value. *)
Inductive JsonData (Doc : Type) : Type :=
| JList (items : list (option Doc))
| JDict (d : Doc)
| JOther.
Arguments JList {Doc} items.
Arguments JDict {Doc} d.
Arguments JOther {Doc}.

(** What opening and reading one file gives: the file cannot be opened or
    decoded (the outer [except Exception] logs it), it holds JSON, or
    [json.load] raises [JSONDecodeError] and the text is read instead. *)
Inductive FileRead (Doc : Type) : Type :=
| Unreadable (e : exn)
| Parsed (data : JsonData Doc)
| NotJson (content : string).
Arguments Unreadable {Doc} e.
Arguments Parsed {Doc} data.
Arguments NotJson {Doc} content.

(** Number of documents one file contributes. *)
Definition documents_in {Doc} (r : FileRead Doc) : Z :=
  match r with
  | Unreadable _ => 0
  | Parsed (JList items) =>
      len (filter (fun i => match i with Some _ => true | None => false end)
                  items)
  | Parsed (JDict _) => 1
  | Parsed JOther => 0
  | NotJson _ => 1
  end.

(** [w'] is [w] after [n] more readings of the clock, and nothing else. *)
Definition reads_only {Doc St} (n : Z) (w w' : World Doc St) : Prop :=
  conn w' = conn w /\ server w' = server w /\ calls w' = calls w /\
  net w' = net w /\ Z.of_nat (reads w') = Z.of_nat (reads w) + n.

Section WithFiles.
Variables (Doc St : Type).
Variable insert_many : InsertMany Doc St.
Variable clock : nat -> Q.
Variable read_file : string -> FileRead Doc.
(** [os.path.basename] and [os.path.getsize] of a file that was just
    opened. *)
Variable basename : string -> string.
Variable getsize : string -> Z.
(** [item.update({"source_file": ..., "loaded_at": ..., "file_size_bytes":
    ...})], and the dict built for a file that is not JSON
    ([raw_content], the same three fields, [content_type]). *)
Variable update : Doc -> string -> Q -> Z -> Doc.
Variable raw_document : string -> string -> Q -> Z -> Doc.

(** Stamp one dict and append it to [documents]. *)
Definition stamp (file_path : string) (st : list Doc * World Doc St)
    (item : Doc) : list Doc * World Doc St :=
  let '(documents, w) := st in
  let '(t, w) := now clock w in
  (documents ++ [update item (basename file_path) t (getsize file_path)],
   w).

(** Body of [for file_path in tqdm(file_paths, ...)]. *)
Definition read_one (st : list Doc * World Doc St) (file_path : string)
  : list Doc * World Doc St :=
  match read_file file_path with
  | Unreadable _ => st
  | Parsed (JList items) =>
      fold_left
        (fun st item =>
           match item with
           | Some d => stamp file_path st d
           | None => st
           end)
        items st
  | Parsed (JDict d) => stamp file_path st d
  | Parsed JOther => st
  | NotJson content =>
      let '(documents, w) := st in
      let '(t, w) := now clock w in
      (documents ++
         [raw_document content (basename file_path) t (getsize file_path)],
       w)
  end.

(** [OptimizedBulkLoader.load_json_files_optimized] *)
Definition load_json_files_optimized (self : OptimizedBulkLoader)
    (file_paths : list string) (w : World Doc St)
  : Result * OptimizedBulkLoader * World Doc St :=
  let '(documents, w) := fold_left read_one file_paths ([], w) in
  match documents with
  | [] =>
      (mkResult 0 [Message "No se encontraron documentos válidos"] None,
       self, w)
  | _ :: _ =>
      bulk_insert_optimized insert_many clock self documents false true w
  end.

End WithFiles.

Arguments stamp {Doc St} _ _ _ _ _ _ _.
Arguments read_one {Doc St} _ _ _ _ _ _ _ _.
Arguments load_json_files_optimized {Doc St} _ _ _ _ _ _ _ _ _ _.

End Files.

(** ** [src/zip_extractor.py]: [ZipExtractor] *)

Module Extractor.

(** One [ZipInfo] of [zip_ref.infolist()]. *)
Record ZipEntry : Type := mkEntry {
  filename : string;
  is_dir : bool;
  file_size : Z;
  compress_size : Z
}.

(** The dict returned by [get_zip_info]. *)
Record ZipInfo : Type := mkZipInfo {
  zip_path : string;
  zip_name : string;
  zip_size_bytes : Z;
  total_files : Z;
  total_uncompressed_size : Z;
  total_compressed_size : Z;
  compression_ratio : Q;
  file_list : list string
}.

(** [os.stat(file_path)], the fields that are read. *)
Record FileStat : Type := mkFileStat {
  st_size : Z;
  st_ctime : Q;
  st_mtime : Q
}.

(** The dict returned by [get_file_metadata]. *)
Record Metadata : Type := mkMetadata {
  file_name : string;
  file_path : string;
  file_size_bytes : Z;
  file_extension : string;
  mime_type : option string;
  file_hash : option string;
  created_date : string;
  modified_date : string;
  processed_date : Q;
  content : option string;
  is_text_file : bool;
  size_mb : Q
}.

(** [ZipExtractor.__init__]: [max_file_size_mb * 1024 * 1024] *)
Definition max_file_size_bytes (max_file_size_mb : Z) : Z :=
  max_file_size_mb * 1024 * 1024.

(** [mime_type is not None and mime_type.startswith('text/')] *)
Definition is_text (mime_type : option string) : bool :=
  match mime_type with
  | Some m => String.prefix "text/" m
  | None => false
  end.

(** [x or y] on strings *)
Definition or_else (x : option string) (y : string) : string :=
  match x with
  | Some (String _ _ as s) => s
  | Some EmptyString | None => y
  end.

Section WithFileSystem.
(** The file system and the libraries, as the extractor calls them:
    [zipfile.ZipFile(p).infolist()], [os.path.getsize], [os.path.exists],
    [os.stat], [mimetypes.guess_type], reading a file as text, its SHA-256
    digest, [datetime.fromtimestamp(t).isoformat()], [os.path.basename],
    [Path(p).suffix.lower()], [os.path.relpath], the files found by
    [os.walk] (each already joined with its directory), and [round]. *)
Variable infolist : string -> Exc (list ZipEntry).
Variable getsize : string -> Exc Z.
Variable path_exists : string -> bool.
Variable stat : string -> Exc FileStat.
Variable guess_type : string -> option string.
Variable read_text : string -> Exc string.
Variable sha256 : string -> Exc string.
Variable isoformat : Q -> Exc string.
Variable basename : string -> string.
Variable suffix_lower : string -> string.
Variable relpath : string -> string -> Exc string.
Variable walk : string -> list string.
Variable round : Q -> Z -> Q.
Variable clock : nat -> Q.

Definition files_only (info_list : list ZipEntry) : list ZipEntry :=
  filter (fun info => negb (is_dir info)) info_list.

(** [ZipExtractor.get_zip_info] *)
Definition get_zip_info (path : string) : option ZipInfo :=
  match infolist path with
  | Raise _ => None
  | Ret info_list =>
      let total_files := len (files_only info_list) in
      let total_size :=
        fold_right Z.add 0 (map file_size (files_only info_list)) in
      let compressed_size :=
        fold_right Z.add 0 (map compress_size (files_only info_list)) in
      match getsize path with
      | Raise _ => None
      | Ret size =>
          match (if 0 <? total_size
                 then q <- py_truediv (inject_Z compressed_size)
                                      (inject_Z total_size) ;;
                      Ret (round ((1 - q) * 100)%Q 2)
                 else Ret 0%Q)
          with
          | Raise _ => None
          | Ret ratio =>
              Some (mkZipInfo path (basename path) size total_files
                      total_size compressed_size ratio
                      (map filename (files_only info_list)))
          end
      end
  end.

(** [ZipExtractor.calculate_file_hash] *)
Definition calculate_file_hash (path : string) : option string :=
  match sha256 path with
  | Ret h => Some h
  | Raise _ => None
  end.

(** [ZipExtractor.get_file_metadata]; [reads] counts the clock readings
    taken so far. *)
Definition get_file_metadata (path : string) (relative_path : option string)
    (reads : nat) : option Metadata * nat :=
  if negb (path_exists path) then (None, reads)
  else
    match stat path with
    | Raise _ => (None, reads)
    | Ret st =>
        let mime := guess_type path in
        let text :=
          if is_text mime && (st_size st <? 1024 * 1024)
          then match read_text path with
               | Ret c => Some c
               | Raise _ => None
               end
          else None in
        let hash := calculate_file_hash path in
        match isoformat (st_ctime st) with
        | Raise _ => (None, reads)
        | Ret created =>
            match isoformat (st_mtime st) with
            | Raise _ => (None, reads)
            | Ret modified =>
                (Some (mkMetadata (basename path)
                         (or_else relative_path path)
                         (st_size st) (suffix_lower path) mime hash
                         created modified (clock reads) text
                         (is_text mime)
                         (round (inject_Z (st_size st)
                                 / inject_Z (1024 * 1024))%Q 2)),
                 S reads)
            end
        end
    end.

(** The loop of [process_extracted_files] over the files found; an
    exception outside [get_file_metadata] ends the generator. *)
Fixpoint process_files (max_bytes : Z) (extract_folder : string)
    (files : list string) (reads : nat) : list Metadata * nat :=
  match files with
  | [] => ([], reads)
  | path :: rest =>
      match getsize path with
      | Raise _ => ([], reads)
      | Ret size =>
          if max_bytes <? size
          then process_files max_bytes extract_folder rest reads
          else
            match relpath path extract_folder with
            | Raise _ => ([], reads)
            | Ret relative_path =>
                let '(metadata, reads) :=
                  get_file_metadata path (Some relative_path) reads in
                match metadata with
                | Some m =>
                    let '(ms, reads) :=
                      process_files max_bytes extract_folder rest reads in
                    (m :: ms, reads)
                | None =>
                    process_files max_bytes extract_folder rest reads
                end
            end
      end
  end.

(** [ZipExtractor.process_extracted_files], as the list of what it
    yields. *)
Definition process_extracted_files (max_file_size_mb : Z)
    (extract_folder : string) (reads : nat) : list Metadata * nat :=
  process_files (max_file_size_bytes max_file_size_mb) extract_folder
                (walk extract_folder) reads.

End WithFileSystem.

End Extractor.

(** ** [main.py]: the summary *)

Module Report.
Import Driver.

(** The dict under ["processing_summary"]. *)
Record Summary : Type := mkSummary {
  summary_zips_processed : Z;
  summary_files_uploaded : Z;
  summary_errors : Z;
  summary_failed_zips : list (string * string);
  duration_seconds : option Q;
  summary_start_time : option Q;
  summary_end_time : option Q
}.

(** [ZipToMongoProcessor.get_processing_summary] *)
Definition get_processing_summary (stats : Stats) : Summary :=
  let duration :=
    match start_time stats, end_time stats with
    | Some t0, Some t1 => Some (t1 - t0)%Q
    | _, _ => None
    end in
  mkSummary (total_zips_processed stats) (total_files_uploaded stats)
            (total_errors stats) (failed_zips stats) duration
            (start_time stats) (end_time stats).

End Report.

(** ** The ids a call brought back *)

Module Uploaded.
Import Mongo.

(** [result.inserted_ids] of a call that returned, nothing otherwise. *)
Definition call_ids {Doc} (c : Call Doc) : list Z :=
  match call_reply c with
  | InsertManyResult inserted_ids => inserted_ids
  | RaisesBulkWriteError _ | RaisesException _ => []
  end.

End Uploaded.

(** ** More simulated collaborators *)

Module Examples.
Import Mongo.

(** An environment that sets [MONGODB_URI] only. *)
Definition env_with_uri (name : string) : option string :=
  if String.eqb name "MONGODB_URI" then Some "mongodb://localhost" else None.

(** A server that accepts clients and answers pings. *)
Definition client_ok (uri : string) : option exn := None.
Definition ping_ok (s : nat) : option exn := None.

(** A console that shows every line. *)
Definition console_ok (line : Driver.Output) : option exn := None.

(** Files for [load_json_files_optimized]: a JSON list with two objects
    and a number, a file that is not JSON, and unreadable files. *)
Definition json_files (path : string) : Files.FileRead Z :=
  if String.eqb path "lista.json"
  then Files.Parsed (Files.JList [Some 1; None; Some 2])
  else if String.eqb path "notas.txt"
  then Files.NotJson "hola"
  else Files.Unreadable (Exception "No such file or directory").

Definition no_files (path : string) : Files.FileRead Z :=
  Files.Unreadable (Exception "No such file or directory").

(** A folder with a small text file, a file above the size limit, and a
    file whose size cannot be read. *)
Definition folder (root : string) : list string :=
  ["leeme.txt"; "video.bin"; "roto.dat"; "otro.txt"].

Definition size_of (path : string) : Exc Z :=
  if String.eqb path "video.bin" then Ret (60 * 1024 * 1024)
  else if String.eqb path "roto.dat" then Raise (Exception "I/O error")
  else Ret 4.

Definition stat_of (path : string) : Exc Extractor.FileStat :=
  Ret (Extractor.mkFileStat 4 0 0).

Definition mime_of (path : string) : option string :=
  if String.eqb path "video.bin" then None else Some "text/plain".

Definition leeme : Extractor.Metadata :=
  Extractor.mkMetadata "leeme.txt" "leeme.txt" 4 ".txt"
    (Some "text/plain") (Some "e3b0") "1970-01-01T00:00:00"
    "1970-01-01T00:00:00" 0 (Some "hola") true (4 # 1048576).

End Examples.

(** * Properties *)

(** ** Facts about the built-ins *)

Section BuiltinFacts.
Context {A : Type}.

Lemma firstn_min_length (n : nat) (l : list A) :
  firstn (Nat.min n (List.length l)) l = firstn n l.
Proof.
  destruct (Nat.le_gt_cases n (List.length l)) as [Hle | Hgt].
  - now rewrite Nat.min_l.
  - rewrite Nat.min_r by lia.
    rewrite firstn_all. symmetry. apply firstn_all2. lia.
Qed.

(** A slice that starts inside the list and asks for [b] items. *)
Lemma py_slice_from (l : list A) (i b : Z) :
  0 <= i <= len l -> 0 <= b ->
  py_slice l i (i + b) = firstn (Z.to_nat b) (skipn (Z.to_nat i) l).
Proof.
  intros Hi Hb. unfold py_slice, clamp_index.
  destruct (i <? 0) eqn:Ei; [apply Z.ltb_lt in Ei; lia|].
  destruct (i + b <? 0) eqn:Eb; [apply Z.ltb_lt in Eb; lia|].
  rewrite (Z.min_l i) by lia.
  rewrite <- (firstn_min_length (Z.to_nat b)).
  f_equal. rewrite length_skipn. unfold len in *. lia.
Qed.

Lemma firstn_plus (a b : nat) (l : list A) :
  firstn (a + b)%nat l = firstn a l ++ firstn b (skipn a l).
Proof.
  revert l. induction a as [|a IH]; intros [|x l]; simpl;
    try reflexivity.
  - now rewrite firstn_nil.
  - now rewrite IH.
Qed.

(** Consecutive windows of width [b] glue back into a prefix. *)
Lemma concat_windows (b k : nat) (l : list A) :
  List.concat (map (fun j => firstn b (skipn (j * b)%nat l)) (seq 0 k))
  = firstn (k * b)%nat l.
Proof.
  induction k as [|k IH].
  - reflexivity.
  - rewrite seq_S, map_app, concat_app, IH. simpl.
    rewrite app_nil_r, (Nat.add_comm b), firstn_plus. reflexivity.
Qed.

End BuiltinFacts.

Lemma range_len_from_zero (n b : Z) :
  0 <= n -> 0 < b -> range_len 0 n b = Partitioner.ceil_div n b.
Proof.
  intros Hn Hb. unfold range_len, Partitioner.ceil_div.
  destruct (0 <? b) eqn:E; [|apply Z.ltb_ge in E; lia].
  destruct (0 <? n) eqn:En.
  - apply Z.ltb_lt in En.
    replace (n + b - 1) with (n - 0 - 1 + 1 * b) by lia.
    now rewrite Z.div_add by lia.
  - apply Z.ltb_ge in En. assert (n = 0) by lia. subst n.
    simpl. symmetry. apply Z.div_small. lia.
Qed.

(** [ceil_div n b] is the ceiling of [n / b]. *)
Lemma ceil_div_spec (n b : Z) :
  0 <= n -> 0 < b ->
  b * (Partitioner.ceil_div n b - 1) < n <= b * Partitioner.ceil_div n b.
Proof.
  intros Hn Hb. unfold Partitioner.ceil_div.
  pose proof (Z.div_mod (n + b - 1) b ltac:(lia)) as E.
  pose proof (Z.mod_pos_bound (n + b - 1) b Hb) as M.
  lia.
Qed.

Lemma remainder_spec (n b : Z) :
  0 < n -> 0 < b ->
  Partitioner.remainder n b = n - b * (Partitioner.ceil_div n b - 1).
Proof.
  intros Hn Hb. unfold Partitioner.remainder.
  pose proof (ceil_div_spec n b ltac:(lia) Hb) as C.
  pose proof (Z.div_mod n b ltac:(lia)) as E.
  pose proof (Z.mod_pos_bound n b Hb) as M.
  set (k := Partitioner.ceil_div n b) in *.
  destruct (n mod b =? 0) eqn:R.
  - apply Z.eqb_eq in R. assert (n / b = k) by nia. nia.
  - apply Z.eqb_neq in R. assert (n / b = k - 1) by nia. nia.
Qed.

(** ** The batch partitioner *)

Section PartitionerFacts.
Import Partitioner.
Context {A : Type}.

(** For a positive batch size the batches are the consecutive windows of
    width [batch_size]. *)
Lemma chunk_documents_windows (B : Z) (documents : list A) :
  0 < B ->
  chunk_documents B documents =
  Ret (map (fun j => firstn (Z.to_nat B)
                       (skipn (j * Z.to_nat B)%nat documents))
           (seq 0 (Z.to_nat (ceil_div (len documents) B)))).
Proof.
  intros HB. unfold chunk_documents, py_range.
  destruct (B =? 0) eqn:E; [apply Z.eqb_eq in E; lia|].
  cbn [bind]. f_equal. rewrite map_map.
  assert (HN : 0 <= len documents) by (unfold len; lia).
  rewrite range_len_from_zero by assumption.
  apply map_ext_in. intros j Hj. apply in_seq in Hj.
  pose proof (ceil_div_spec (len documents) B HN HB) as C.
  assert (Hjk : Z.of_nat j <= ceil_div (len documents) B - 1) by lia.
  assert (Z.of_nat j * B <= B * (ceil_div (len documents) B - 1)) by nia.
  rewrite py_slice_from by nia.
  replace (Z.to_nat (0 + Z.of_nat j * B)) with (j * Z.to_nat B)%nat.
  - reflexivity.
  - rewrite Z.add_0_l, Z2Nat.inj_mul, Nat2Z.id by lia. reflexivity.
Qed.

Lemma window_length (b j : nat) (l : list A) :
  List.length (firstn b (skipn (j * b)%nat l))
  = Nat.min b (List.length l - j * b)%nat.
Proof. now rewrite length_firstn, length_skipn. Qed.

Lemma nth_error_windows (f : nat -> list A) (k j : nat) (batch : list A) :
  nth_error (map f (seq 0 k)) j = Some batch ->
  (j < k)%nat /\ batch = f j.
Proof.
  intros H. rewrite nth_error_map in H.
  destruct (nth_error (seq 0 k) j) as [i|] eqn:E; [|discriminate].
  assert (Hlt : (j < k)%nat).
  { rewrite <- (length_seq k 0). apply nth_error_Some. congruence. }
  apply (nth_error_nth _ _ 0%nat) in E. rewrite seq_nth in E by assumption.
  simpl in *. split; [assumption | congruence].
Qed.

Lemma windows_cover (B : Z) (documents : list A) :
  0 < B ->
  List.concat
    (map (fun j => firstn (Z.to_nat B)
                     (skipn (j * Z.to_nat B)%nat documents))
         (seq 0 (Z.to_nat (ceil_div (len documents) B))))
  = documents.
Proof.
  intros HB.
  assert (HN : 0 <= len documents) by (unfold len; lia).
  pose proof (ceil_div_spec (len documents) B HN HB) as C.
  set (K := ceil_div (len documents) B) in *.
  assert (HK : 0 <= K) by nia.
  rewrite concat_windows. apply firstn_all2.
  assert (Hkb : Z.of_nat (Z.to_nat K * Z.to_nat B) = K * B)
    by (rewrite Nat2Z.inj_mul; lia).
  unfold len in *. lia.
Qed.

(** C1. For every list of [N] documents and every batch size [B > 0],
    [chunk_documents] yields [ceil(N/B)] batches; every batch but the
    last has length [B] and the last has the remainder; no batch is
    empty (so none is yielded when [N = 0]); the batches concatenated
    give back the input, in order.  With [N = 7395] and [B = 1000] the
    batch sizes are seven times 1000 and then 395. *)
Theorem chunk_documents_partition (B : Z) (documents : list A) :
  0 < B ->
  exists batches : list (list A),
    chunk_documents B documents = Ret batches /\
    len batches = ceil_div (len documents) B /\
    B * (ceil_div (len documents) B - 1) < len documents
      <= B * ceil_div (len documents) B /\
    (forall (k : nat) (batch : list A),
        nth_error batches k = Some batch ->
        len batch = if Z.of_nat k + 1 <? len batches
                    then B
                    else remainder (len documents) B) /\
    Forall (fun batch => batch <> []) batches /\
    List.concat batches = documents /\
    (len documents = 7395 -> B = 1000 ->
     map len batches = [1000; 1000; 1000; 1000; 1000; 1000; 1000; 395]).
Proof.
  intros HB.
  assert (HN : 0 <= len documents) by (unfold len; lia).
  pose proof (ceil_div_spec (len documents) B HN HB) as C.
  set (K := ceil_div (len documents) B) in *.
  assert (HK : 0 <= K) by nia.
  eexists. split; [apply chunk_documents_windows; assumption|].
  fold K.
  assert (Hlen : forall f : nat -> list A,
             len (map f (seq 0 (Z.to_nat K))) = K).
  { intros f. unfold len. rewrite length_map, length_seq. lia. }
  split; [apply Hlen|]. split; [exact C|].
  split; [|split; [|split]].
  - intros k batch Hk. rewrite Hlen.
    apply nth_error_windows in Hk. destruct Hk as [Hlt ->].
    unfold len at 1. rewrite window_length.
    assert (Hkb : Z.of_nat (k * Z.to_nat B) = Z.of_nat k * B)
      by (rewrite Nat2Z.inj_mul; lia).
    destruct (Z.of_nat k + 1 <? K) eqn:E.
    + apply Z.ltb_lt in E.
      assert (B * (Z.of_nat k + 1) <= B * (K - 1)) by nia.
      unfold len in *. lia.
    + apply Z.ltb_ge in E. assert (Z.of_nat k = K - 1) by lia.
      assert (0 < len documents) by nia.
      rewrite remainder_spec by assumption. fold K.
      unfold len in *. nia.
  - apply Forall_forall. intros batch Hin.
    apply in_map_iff in Hin. destruct Hin as (j & <- & Hj).
    apply in_seq in Hj. intros Hnil.
    apply (f_equal (@List.length A)) in Hnil.
    rewrite window_length in Hnil. simpl in Hnil.
    assert (Hjb : Z.of_nat (j * Z.to_nat B) = Z.of_nat j * B)
      by (rewrite Nat2Z.inj_mul; lia).
    assert (Z.of_nat j * B <= B * (K - 1)) by nia.
    unfold len in *. lia.
  - apply windows_cover. assumption.
  - intros H7395 H1000. rewrite map_map.
    erewrite map_ext by (intros j; unfold len; rewrite window_length;
                         reflexivity).
    assert (Hnat : List.length documents = Z.to_nat 7395)
      by (unfold len in H7395; lia).
    rewrite Hnat. subst K. rewrite H7395, H1000. vm_compute. reflexivity.
Qed.

End PartitionerFacts.

Section PartitionerBySign.
Import Partitioner.
Context {A : Type}.

(** C6, as the code has it.  A batch size of zero makes the partitioner
    fail (the [ValueError] of [range]); a negative batch size raises
    nothing and yields no batch at all; every positive batch size
    succeeds, and the batches cover the input. *)
Theorem chunk_documents_by_sign (B : Z) (documents : list A) :
  match B ?= 0 with
  | Eq => chunk_documents B documents
          = Raise (ValueError "range() arg 3 must not be zero")
  | Lt => chunk_documents B documents = Ret []
  | Gt => exists batches,
            chunk_documents B documents = Ret batches /\
            List.concat batches = documents
  end.
Proof.
  destruct (Z.compare_spec B 0) as [-> | Hlt | Hgt].
  - reflexivity.
  - unfold chunk_documents, py_range, range_len.
    destruct (B =? 0) eqn:E; [apply Z.eqb_eq in E; lia|].
    destruct (0 <? B) eqn:E1; [apply Z.ltb_lt in E1; lia|].
    destruct (len documents <? 0) eqn:E2;
      [apply Z.ltb_lt in E2; unfold len in E2; lia|].
    reflexivity.
  - eexists. split.
    + apply chunk_documents_windows. lia.
    + apply windows_cover. lia.
Qed.

End PartitionerBySign.

(** C6, as stated, fails: with batch size [-1] nothing is raised, and the
    three documents are silently dropped. *)
Lemma chunk_documents_negative_size_is_silent :
  -1 <= 0 /\
  raises (Partitioner.chunk_documents (-1) [10; 20; 30]) = false /\
  Partitioner.chunk_documents (-1) [10; 20; 30] = Ret [].
Proof. repeat split; try reflexivity. lia. Qed.

(** ** The bulk loader *)

Section LoaderFacts.
Import Mongo Loader Log Partitioner.
Context {Doc St : Type}.
Variable insert_many : InsertMany Doc St.
Variable clock : nat -> Q.

Lemma sum_cons (x : Z) (l : list Z) : sum (x :: l) = x + sum l.
Proof. reflexivity. Qed.

Lemma len_cons {A} (x : A) (l : list A) : len (x :: l) = 1 + len l.
Proof. unfold len. simpl List.length. lia. Qed.

(** The loop submits the batches one after the other whatever the store
    answers, and its locals and counters are the per-call contributions
    added up. *)
Lemma loop_serves (ordered bypass : bool) (batches : list (list Doc)) :
  forall loc self w,
    collection (conn w) <> None ->
    fold_left (loop_body insert_many ordered bypass) batches
              (loc, self, w)
    = let new := fst (serve insert_many ordered bypass (server w) batches) in
      (mkLocals (loc_total_inserted loc + sum (map call_inserted new))
                (loc_errors loc ++ flat_map call_errors new),
       mkLoader (batch_size self)
         (mkStats (total_processed (stats self))
            (total_inserted (stats self)) (total_errors (stats self))
            (batches_processed (stats self)
             + len (filter fully_inserted new))
            (start_time (stats self)) (end_time (stats self))),
       mkWorld (conn w)
         (snd (serve insert_many ordered bypass (server w) batches))
         (calls w ++ new) (net w) (reads w)).
Proof.
  induction batches as [|batch rest IH]; intros loc self w Hc.
  - destruct loc, self as [? []], w. cbn.
    rewrite !Z.add_0_r, !app_nil_r. reflexivity.
  - cbn [fold_left serve]. unfold loop_body at 2.
    destruct (collection (conn w)) eqn:Ec; [|congruence].
    unfold call_insert_many.
    destruct (insert_many (server w) batch ordered bypass) as [reply s1].
    destruct (serve insert_many ordered bypass s1 rest) as [log s2] eqn:Es.
    destruct reply as [ids | details | e];
      rewrite IH by (cbn; congruence);
      cbn [server conn calls net reads fst snd]; rewrite Es;
      cbn -[Z.add len sum];
      rewrite ?sum_cons, ?len_cons, <- ?Z.add_assoc, <- ?app_assoc;
      reflexivity.
Qed.

Lemma chunk_documents_nonzero (B : Z) (documents : list Doc) :
  B <> 0 -> exists batches, chunk_documents B documents = Ret batches.
Proof.
  intros HB. unfold chunk_documents, py_range.
  destruct (B =? 0) eqn:E; [apply Z.eqb_eq in E; contradiction|].
  eexists. reflexivity.
Qed.

(** The normal path of [bulk_insert_optimized], in closed form. *)
Lemma bulk_insert_optimized_normal (self : OptimizedBulkLoader)
    (documents : list Doc) (ordered bypass : bool) (w : World Doc St)
    (batches : list (list Doc)) :
  documents <> [] ->
  collection (conn w) <> None ->
  batch_size self <> 0 ->
  chunk_documents (batch_size self) documents = Ret batches ->
  bulk_insert_optimized insert_many clock self documents ordered bypass w
  = let new := fst (serve insert_many ordered bypass (server w) batches) in
    let done := batches_processed (stats self)
                + len (filter fully_inserted new) in
    (mkResult (sum (map call_inserted new)) (flat_map call_errors new)
              (Some done),
     mkLoader (batch_size self)
       (mkStats (total_processed (stats self))
          (sum (map call_inserted new))
          (len (flat_map call_errors new))
          done
          (Some (clock (reads w)))
          (Some (clock (S (reads w))))),
     mkWorld (conn w)
       (snd (serve insert_many ordered bypass (server w) batches))
       (calls w ++ new) (net w) (S (S (reads w)))).
Proof.
  intros Hd Hc HB Hchunk. unfold bulk_insert_optimized.
  destruct documents as [|d documents]; [congruence|].
  cbn [now]. cbn [conn set_start_time batch_size].
  destruct (collection (conn w)) eqn:Ec; [|congruence].
  unfold py_floordiv.
  destruct (batch_size self =? 0) eqn:E; [apply Z.eqb_eq in E; lia|].
  rewrite Hchunk, loop_serves by (cbn; congruence).
  reflexivity.
Qed.

(** What every run does to the log and to the counters, on every path
    through [bulk_insert_optimized]. *)
Lemma bulk_insert_optimized_log (self : OptimizedBulkLoader)
    (documents : list Doc) (ordered bypass : bool) (w : World Doc St) :
  exists new : list (Call Doc),
    let '(res, self', w') :=
      bulk_insert_optimized insert_many clock self documents
                            ordered bypass w in
    calls w' = calls w ++ new /\
    batch_size self' = batch_size self /\
    total_processed (stats self') = total_processed (stats self) /\
    batches_processed (stats self')
    = batches_processed (stats self) + len (filter fully_inserted new) /\
    inserted_count res = sum (map call_inserted new).
Proof.
  destruct documents as [|d documents].
  - exists []. cbn. rewrite app_nil_r. repeat split; lia.
  - destruct (collection (conn w)) eqn:Ec.
    + destruct (Z.eq_dec (batch_size self) 0) as [E | E].
      * exists []. unfold bulk_insert_optimized. cbn [now conn].
        rewrite Ec. cbn [set_start_time batch_size]. rewrite E.
        cbn. rewrite app_nil_r. repeat split; lia.
      * destruct (chunk_documents_nonzero (batch_size self)
                    (d :: documents) E) as [batches Hb].
        eexists.
        rewrite (bulk_insert_optimized_normal self (d :: documents)
                   ordered bypass w batches)
          by (assumption || congruence).
        cbn. repeat split; reflexivity.
    + exists []. unfold bulk_insert_optimized. cbn [now conn].
      rewrite Ec. cbn. rewrite app_nil_r. repeat split; lia.
Qed.

(** C2, on the code.  No path through [bulk_insert_optimized] writes
    [total_processed]: the counter keeps the value it had before the
    run.  On a fresh loader with batch size 2 and a store that accepts
    everything, three documents are submitted in batches of 2 and 1, all
    three are inserted, and [total_processed] is still 0. *)
Theorem total_processed_is_never_updated :
  (forall self documents ordered bypass w,
      total_processed
        (stats (snd (fst (bulk_insert_optimized insert_many clock self
                            documents ordered bypass w))))
      = total_processed (stats self)) /\
  (let '(res, self', w') :=
     bulk_insert_optimized Simulated.accept_all Simulated.ticking
       (Loader.init 2) (Simulated.numbered 3) false true
       Simulated.connected in
   len (Simulated.numbered 3) = 3 /\
   map (fun c => len (call_batch c)) (calls w') = [2; 1] /\
   inserted_count res = 3 /\
   total_processed (stats self') = 0).
Proof.
  split.
  - intros self documents ordered bypass w.
    destruct (bulk_insert_optimized_log self documents ordered bypass w)
      as [new H].
    destruct (bulk_insert_optimized _ _ _ _ _ _ _) as [[res self'] w'].
    cbn. tauto.
  - vm_compute. repeat split; reflexivity.
Qed.

(** C9. On the empty list [bulk_insert_optimized] returns
    [{"inserted_count": 0, "errors": []}] at once: the loader (all of
    [stats], time stamps included) and the world (store, logs, clock)
    are left as they were. *)
Theorem bulk_insert_optimized_empty (self : OptimizedBulkLoader)
    (ordered bypass : bool) (w : World Doc St) :
  bulk_insert_optimized insert_many clock self [] ordered bypass w
  = (mkResult 0 [] None, self, w).
Proof. reflexivity. Qed.

End LoaderFacts.

(** ** The loop of [OptimizedMongoLoader] *)

Section CargadorFacts.
Import Mongo Log.
Context {Doc St : Type}.
Variable insert_many : InsertMany Doc St.
Variable clock : nat -> Q.

Lemma serve_batches (ordered bypass : bool) (batches : list (list Doc)) :
  forall s,
    map call_batch (fst (serve insert_many ordered bypass s batches))
    = batches.
Proof.
  induction batches as [|batch rest IH]; intros s; cbn [serve].
  - reflexivity.
  - destruct (insert_many s batch ordered bypass) as [reply s1].
    specialize (IH s1).
    destruct (serve insert_many ordered bypass s1 rest) as [log s2].
    cbn in *. now rewrite IH.
Qed.

(** One turn of the loop makes exactly one call, whatever comes back. *)
Lemma cargador_loop_body_call (documents : list Doc) (B : Z) (t0 : Q)
    (inserted_count : Z) (out : list Cargador.Progress)
    (w : World Doc St) (i : Z) :
  let batch := py_slice documents i (i + B) in
  let w' := snd (Cargador.loop_body insert_many clock documents B t0
                   (inserted_count, out, w) i) in
  conn w' = conn w /\
  net w' = net w /\
  server w' = snd (insert_many (server w) batch false true) /\
  calls w' = calls w ++
             [mkCall batch false true
                (fst (insert_many (server w) batch false true))].
Proof.
  unfold Cargador.loop_body, call_insert_many.
  destruct (insert_many (server w) _ false true) as [reply s1].
  destruct reply as [ids | details | e]; cbn [fst snd];
    [|repeat split; reflexivity ..].
  destruct (py_truediv _ _); [|repeat split; reflexivity].
  cbn [now reads conn server calls net].
  destruct (if Qpositive _ then _ else _); repeat split; reflexivity.
Qed.

Lemma cargador_loop_serves (documents : list Doc) (B : Z) (t0 : Q)
    (starts : list Z) :
  forall inserted_count out w,
    let w' := snd (fold_left
                     (Cargador.loop_body insert_many clock documents B t0)
                     starts (inserted_count, out, w)) in
    let served :=
      serve insert_many false true (server w)
            (map (fun i => py_slice documents i (i + B)) starts) in
    conn w' = conn w /\
    net w' = net w /\
    server w' = snd served /\
    calls w' = calls w ++ fst served.
Proof.
  induction starts as [|i rest IH]; intros inserted_count out w.
  - cbn. rewrite app_nil_r. repeat split; reflexivity.
  - cbn [fold_left map serve].
    pose proof (cargador_loop_body_call documents B t0 inserted_count
                  out w i) as H.
    destruct (Cargador.loop_body insert_many clock documents B t0
                (inserted_count, out, w) i) as [[ic1 out1] w1].
    cbn [snd] in H. cbv zeta in H. destruct H as (Hc & Hn & Hs & Hl).
    specialize (IH ic1 out1 w1). cbv zeta in IH.
    destruct IH as (Hc' & Hn' & Hs' & Hl').
    destruct (insert_many (server w) _ false true) as [reply s1].
    cbn [fst snd] in Hs, Hl. rewrite Hs in Hs', Hl'.
    destruct (serve insert_many false true s1 _) as [log s2].
    cbn [fst snd] in *. cbv zeta.
    rewrite Hc', Hn', Hs', Hl', Hl, <- app_assoc.
    repeat split; assumption || reflexivity.
Qed.

(** [optimized_bulk_insert] submits every batch of the partition, in
    order, each once, whether or not it then returns. *)
Lemma optimized_bulk_insert_calls (documents : list Doc) (B : Z)
    (w : World Doc St) (batches : list (list Doc)) :
  Partitioner.chunk_documents B documents = Ret batches ->
  calls (snd (Cargador.optimized_bulk_insert insert_many clock
                documents B w))
  = calls w ++ fst (serve insert_many false true (server w) batches).
Proof.
  unfold Partitioner.chunk_documents, Cargador.optimized_bulk_insert.
  destruct (py_range 0 (len documents) B) as [starts|e]; cbn [bind];
    [|discriminate].
  intros [= <-]. cbn [now].
  pose proof (cargador_loop_serves documents B (clock (reads w)) starts
                0 []
                (mkWorld (conn w) (server w) (calls w) (net w)
                         (S (reads w)))) as H.
  destruct (fold_left _ starts _) as [[ic out] w1].
  cbn [snd server calls conn net] in H. cbv zeta in H.
  destruct H as (_ & _ & _ & Hl).
  cbn [now]. destruct (py_truediv _ _); cbn [snd calls]; exact Hl.
Qed.

End CargadorFacts.

(** ** Failures reported by the store *)

Section FailureFacts.
Import Mongo Loader Log Partitioner.
Context {Doc St : Type}.
Variable insert_many : InsertMany Doc St.
Variable clock : nat -> Q.

Lemma hard_failure_entry (c : Call Doc) (e : exn) (new : list (Call Doc)) :
  In c new -> call_reply c = RaisesException e ->
  call_errors c = [BatchError (str e) (len (call_batch c))] /\
  In (BatchError (str e) (len (call_batch c))) (flat_map call_errors new).
Proof.
  intros Hin Hr.
  assert (Hc : call_errors c = [BatchError (str e) (len (call_batch c))])
    by (unfold call_errors; now rewrite Hr).
  split; [exact Hc|].
  apply in_flat_map. exists c. split; [assumption|].
  rewrite Hc. now left.
Qed.

(** C4. With a positive batch size and a connected collection, the run
    over a non-empty list submits every batch of the partition, in
    order and each exactly once, whatever the store answers: a batch on
    which the store raises is recorded in [errors] and the next batch is
    submitted; nothing is submitted twice.  The run ends on its normal
    return (the result carries [batches_processed], [end_time] is
    stamped).  The loop of [OptimizedMongoLoader.optimized_bulk_insert]
    submits the same batches, in the same order. *)
Theorem hard_failure_does_not_stop_the_run (self : OptimizedBulkLoader)
    (documents : list Doc) (ordered bypass : bool) (w : World Doc St) :
  0 < batch_size self ->
  collection (conn w) <> None ->
  documents <> [] ->
  exists batches : list (list Doc),
    chunk_documents (batch_size self) documents = Ret batches /\
    List.concat batches = documents /\
    let served := serve insert_many ordered bypass (server w) batches in
    let '(res, self', w') :=
      bulk_insert_optimized insert_many clock self documents
                            ordered bypass w in
    calls w' = calls w ++ fst served /\
    map call_batch (fst served) = batches /\
    server w' = snd served /\
    result_batches_processed res = Some (batches_processed (stats self')) /\
    end_time (stats self') = Some (clock (S (reads w))) /\
    (forall c e,
        In c (fst served) -> call_reply c = RaisesException e ->
        In (BatchError (str e) (len (call_batch c))) (errors res)) /\
    calls (snd (Cargador.optimized_bulk_insert insert_many clock
                  documents (batch_size self) w))
    = calls w ++ fst (serve insert_many false true (server w) batches).
Proof.
  intros HB Hc Hd.
  eexists. split; [apply chunk_documents_windows; assumption|].
  split; [apply windows_cover; assumption|].
  erewrite bulk_insert_optimized_normal;
    [| assumption | assumption | lia
     | apply chunk_documents_windows; assumption].
  cbn zeta. cbn [calls server result_batches_processed stats
                 batches_processed end_time errors].
  repeat split.
  - apply serve_batches.
  - intros c e Hin Hr. eapply hard_failure_entry; eassumption.
  - apply optimized_bulk_insert_calls.
    apply chunk_documents_windows; assumption.
Qed.

(** C5, as the code has it.  A batch on which the store raises adds
    exactly one entry to [errors], the dict holding the reason and, in
    its field [batch_size], the full size of the batch;
    [total_errors] is the number of entries of [errors], so such a batch
    counts for one. *)
Theorem hard_failure_is_one_error_entry (self : OptimizedBulkLoader)
    (documents : list Doc) (ordered bypass : bool) (w : World Doc St) :
  batch_size self <> 0 ->
  collection (conn w) <> None ->
  documents <> [] ->
  exists batches : list (list Doc),
    chunk_documents (batch_size self) documents = Ret batches /\
    let new := fst (serve insert_many ordered bypass (server w) batches) in
    let '(res, self', w') :=
      bulk_insert_optimized insert_many clock self documents
                            ordered bypass w in
    calls w' = calls w ++ new /\
    errors res = flat_map call_errors new /\
    total_errors (stats self') = len (errors res) /\
    (forall c e,
        In c new -> call_reply c = RaisesException e ->
        call_errors c = [BatchError (str e) (len (call_batch c))] /\
        In (BatchError (str e) (len (call_batch c))) (errors res)).
Proof.
  intros HB Hc Hd.
  destruct (chunk_documents_nonzero (batch_size self) documents HB)
    as [batches Hb].
  exists batches. split; [assumption|].
  rewrite (bulk_insert_optimized_normal insert_many clock self documents
             ordered bypass w batches) by assumption.
  cbn zeta. cbn [calls errors stats total_errors].
  repeat split; eapply hard_failure_entry; eassumption.
Qed.

(** C3. When the store answers a batch with [BulkWriteError], the loop
    adds [details['nInserted']] to the running [total_inserted] and the
    entries of [details['writeErrors']] to the running [errors] (and
    does not touch the loader).  With a store that rejects the items at
    indices 2 and 5 of an unordered batch of 10, the store's answer
    carries [nInserted = 8] and two write errors, the run returns
    [inserted_count = 8] with those two errors, and the stats end with
    [total_inserted = 8] and [total_errors = 2]. *)
Theorem partial_failure_is_recovered :
  (forall (ordered bypass : bool) (loc : Locals)
          (self : OptimizedBulkLoader) (w : World Doc St)
          (batch : list Doc) (details : BulkWriteDetails) (s' : St),
      collection (conn w) <> None ->
      insert_many (server w) batch ordered bypass
      = (RaisesBulkWriteError details, s') ->
      loop_body insert_many ordered bypass (loc, self, w) batch
      = (mkLocals
           (loc_total_inserted loc + get (nInserted details) 0)
           (loc_errors loc
            ++ map WriteErrorEntry (get (writeErrors details) [])),
         self,
         mkWorld (conn w) s'
           (calls w ++ [mkCall batch ordered bypass
                          (RaisesBulkWriteError details)])
           (net w) (reads w))) /\
  (let '(res, self', w') :=
     bulk_insert_optimized (Simulated.reject_at [2; 5]) Simulated.ticking
       (Loader.init 1000) (Simulated.numbered 10) false true
       Simulated.connected in
   map call_reply (calls w')
   = [RaisesBulkWriteError
        (mkDetails (Some 8)
           (Some [Simulated.rejection 2; Simulated.rejection 5]))] /\
   inserted_count res = 8 /\
   errors res = [WriteErrorEntry (Simulated.rejection 2);
                 WriteErrorEntry (Simulated.rejection 5)] /\
   total_inserted (stats self') = 8 /\
   total_errors (stats self') = 2).
Proof.
  split.
  - intros ordered bypass loc self w batch details s' Hc Hs.
    unfold loop_body, call_insert_many.
    destruct (collection (conn w)); [|congruence].
    rewrite Hs. reflexivity.
  - vm_compute. repeat split; reflexivity.
Qed.

End FailureFacts.

(** C5, as stated, fails.  Batch size 2, ten documents, a transport
    failure on the third of the five batches: the third batch (two
    documents) is recorded with its reason, and the final [total_errors]
    is 1, less than the size of that batch. *)
Lemma hard_failure_counts_for_one :
  let '(res, self', w') :=
    Loader.bulk_insert_optimized (Simulated.transport_failure_on 3)
      Simulated.ticking (Loader.init 2) (Simulated.numbered 10) false true
      Simulated.connected in
  map (fun c => (len (Mongo.call_batch c), Mongo.hard_failed c))
      (Mongo.calls w')
  = [(2, false); (2, false); (2, true); (2, false); (2, false)] /\
  Loader.errors res = [Loader.BatchError "connection closed" 2] /\
  Loader.total_errors (Loader.stats self') = 1 /\
  ~ (2 <= Loader.total_errors (Loader.stats self')).
Proof. vm_compute. repeat split; try reflexivity. intros H. apply H. reflexivity. Qed.

(** ** Rates and averages *)

Section RateFacts.
Import Mongo.

(** The guarded form [a / d if d > 0 else 0] never raises and is 0 when
    [d] is not positive. *)
Lemma guarded_rate (a d : Q) :
  (if Qpositive d then py_truediv a d else Ret 0%Q)
  = if Qpositive d then Ret (a / d)%Q else Ret 0%Q.
Proof.
  unfold Qpositive, py_truediv.
  destruct (Qle_bool d 0) eqn:E; cbn [negb]; [reflexivity|].
  destruct (Qeq_bool d 0) eqn:E0; [|reflexivity].
  apply Qeq_bool_iff in E0.
  assert (H : Qle_bool d 0 = true)
    by (apply Qle_bool_iff; rewrite E0; apply Qle_refl).
  congruence.
Qed.

(** Both quotients of [get_performance_stats] are guarded: it never
    raises. *)
Lemma get_performance_stats_never_raises (round : Q -> Z -> Q)
    (self : Loader.OptimizedBulkLoader) :
  raises (Loader.get_performance_stats round self) = false.
Proof.
  unfold Loader.get_performance_stats.
  destruct (Loader.start_time _) as [t0|]; [|reflexivity].
  destruct (Loader.end_time _) as [t1|]; [|reflexivity].
  rewrite guarded_rate.
  destruct (Qpositive (t1 - t0)); cbn [bind];
    (destruct (0 <? Loader.batches_processed (Loader.stats self)) eqn:E;
     [|reflexivity]);
    unfold py_truediv;
    (destruct (Qeq_bool (inject_Z _) 0) eqn:E0; [|reflexivity]);
    apply Z.ltb_lt in E; apply Qeq_bool_iff in E0;
    unfold Qeq, inject_Z in E0; cbn in E0; lia.
Qed.

(** C8, on the code.  The last quotient of [optimized_bulk_insert],
    [final_rate = inserted_count / total_time], has no guard: on a clock
    that does not advance between the first and the last reading the
    call ends with [ZeroDivisionError], for the empty list, for a list
    whose three documents were all inserted (the guarded rate of the
    progress lines was 0 meanwhile), and for every list, store and
    non-zero batch size. *)
Theorem final_rate_is_unguarded :
  fst (fst (Cargador.optimized_bulk_insert
              (Simulated.accept_all (Doc := Z)) Simulated.frozen
              [] 1000 Simulated.connected))
  = Raise (ZeroDivisionError "float division by zero") /\
  (let '(r, out, w') :=
     Cargador.optimized_bulk_insert Simulated.accept_all Simulated.frozen
       (Simulated.numbered 3) 2 Simulated.connected in
   r = Raise (ZeroDivisionError "float division by zero") /\
   map Cargador.rate out = [0%Q; 0%Q] /\
   map call_reply (calls w')
   = [InsertManyResult [0; 1]; InsertManyResult [0]]) /\
  (forall (Doc St : Type) (insert_many : InsertMany Doc St)
          (documents : list Doc) (B : Z) (w : World Doc St),
      B <> 0 ->
      fst (fst (Cargador.optimized_bulk_insert insert_many
                  Simulated.frozen documents B w))
      = Raise (ZeroDivisionError "float division by zero")).
Proof.
  split; [vm_compute; reflexivity|].
  split; [vm_compute; repeat split; reflexivity|].
  intros Doc St insert_many documents B w HB.
  unfold Cargador.optimized_bulk_insert, py_range.
  destruct (B =? 0) eqn:E; [apply Z.eqb_eq in E; contradiction|].
  cbn [now]. destruct (fold_left _ _ _) as [[ic out] w1].
  cbn [now]. reflexivity.
Qed.

End RateFacts.

(** ** Connecting *)

Section DriverFacts.
Import Mongo Driver.
Context {Doc St : Type}.
Variable insert_many : InsertMany Doc St.
Variable clock : nat -> Q.
Variable mongo_client : string -> option exn.
Variable ping : St -> option exn.
Variable validate_zip_file : string -> bool.
Variable process_zip_file : string -> option (list Doc).
Variable update : string -> Q -> Q -> Doc -> Doc.
Variable py_print : Output -> option exn.

(** Without a usable URI, [connect] gives up before it touches
    anything. *)
Lemma connect_without_uri (w : World Doc St) :
  falsy (mongodb_uri (conn w)) = true ->
  connect mongo_client ping w = (false, w).
Proof. intros H. unfold connect. now rewrite H. Qed.

(** C7. When [MONGODB_URI] is absent from the environment, [connect]
    returns [False] and leaves the world as it was: no client is built,
    no ping is sent.  [run] then returns [False] with the world and the
    stats unchanged, so nothing was written, and [main] returns exit
    code 1. *)
Theorem missing_uri_is_fatal (getenv : string -> option string)
    (s : St) (log : list (Call Doc)) (events : list NetEvent) (n : nat)
    (zip_paths : list string) (stats : Stats) :
  getenv "MONGODB_URI" = None ->
  let w := mkWorld (Driver.init getenv) s log events n in
  connect mongo_client ping w = (false, w) /\
  run insert_many clock mongo_client ping validate_zip_file
      process_zip_file update py_print zip_paths (stats, w)
  = (false, (stats, w)) /\
  main insert_many clock mongo_client ping validate_zip_file
       process_zip_file update py_print zip_paths w
  = (1, w).
Proof.
  intros Henv w.
  assert (Hc : connect mongo_client ping w = (false, w)).
  { apply connect_without_uri. subst w. unfold Driver.init. cbn.
    now rewrite Henv. }
  assert (Hr : forall st,
             run insert_many clock mongo_client ping validate_zip_file
                 process_zip_file update py_print zip_paths (st, w)
             = (false, (st, w))).
  { intros st. unfold run. rewrite Hc. cbn [negb].
    unfold disconnect. subst w. reflexivity. }
  repeat split; try assumption; [apply Hr|].
  unfold main. destruct zip_paths as [|z zs]; [reflexivity|].
  rewrite Hr. reflexivity.
Qed.

End DriverFacts.

(** ** The theorems at concrete inputs *)

(** C1 at batch size 3 and seven documents. *)
Lemma chunk_documents_partition_witness :
  0 < 3 /\
  exists batches : list (list Z),
    Partitioner.chunk_documents 3 (Simulated.numbered 7) = Ret batches /\
    len batches = Partitioner.ceil_div 7 3 /\
    List.concat batches = Simulated.numbered 7.
Proof.
  split; [reflexivity|].
  destruct (chunk_documents_partition 3 (Simulated.numbered 7))
    as (batches & Hrun & Hlen & _ & _ & _ & Hcat & _).
  - reflexivity.
  - exists batches. repeat split; assumption.
Defined.

(** C4 with batch size 2, five documents and a store that drops the
    connection on the second batch. *)
Lemma hard_failure_does_not_stop_the_run_witness :
  0 < Loader.batch_size (Loader.init 2) /\
  Mongo.collection (Mongo.conn (Simulated.connected (Doc := Z))) <> None /\
  Simulated.numbered 5 <> [] /\
  exists batches : list (list Z),
    Partitioner.chunk_documents 2 (Simulated.numbered 5) = Ret batches /\
    List.concat batches = Simulated.numbered 5.
Proof.
  assert (H1 : 0 < Loader.batch_size (Loader.init 2)) by reflexivity.
  assert (H2 : Mongo.collection
                 (Mongo.conn (Simulated.connected (Doc := Z))) <> None)
    by (vm_compute; discriminate).
  assert (H3 : Simulated.numbered 5 <> []) by (vm_compute; discriminate).
  repeat split; try assumption.
  destruct (hard_failure_does_not_stop_the_run
              (Simulated.transport_failure_on 2) Simulated.ticking
              (Loader.init 2) (Simulated.numbered 5) false true
              Simulated.connected H1 H2 H3)
    as (batches & Hrun & Hcat & _).
  exists batches. split; assumption.
Defined.

(** C5 (amended) with batch size 2, ten documents and a transport failure
    on the third batch. *)
Lemma hard_failure_is_one_error_entry_witness :
  Loader.batch_size (Loader.init 2) <> 0 /\
  Mongo.collection (Mongo.conn (Simulated.connected (Doc := Z))) <> None /\
  Simulated.numbered 10 <> [] /\
  exists batches : list (list Z),
    Partitioner.chunk_documents 2 (Simulated.numbered 10) = Ret batches.
Proof.
  assert (H1 : Loader.batch_size (Loader.init 2) <> 0)
    by (vm_compute; discriminate).
  assert (H2 : Mongo.collection
                 (Mongo.conn (Simulated.connected (Doc := Z))) <> None)
    by (vm_compute; discriminate).
  assert (H3 : Simulated.numbered 10 <> []) by (vm_compute; discriminate).
  repeat split; try assumption.
  destruct (hard_failure_is_one_error_entry
              (Simulated.transport_failure_on 3) Simulated.ticking
              (Loader.init 2) (Simulated.numbered 10) false true
              Simulated.connected H1 H2 H3)
    as (batches & Hrun & _).
  exists batches. assumption.
Defined.

(** C7 with an empty environment and one archive to process. *)
Lemma missing_uri_is_fatal_witness :
  (fun _ : string => @None string) "MONGODB_URI" = None /\
  Driver.main (Simulated.accept_all (Doc := Z)) Simulated.ticking
    (fun _ => None) (fun _ => None) (fun _ => true)
    (fun _ => Some [1; 2; 3]) (fun _ _ _ d => d) (fun _ => None)
    ["datos.zip"] (Simulated.initial (fun _ => None))
  = (1, Simulated.initial (fun _ => None)).
Proof.
  split; [reflexivity|].
  apply (missing_uri_is_fatal (Simulated.accept_all (Doc := Z))
           Simulated.ticking (fun _ => None) (fun _ => None)
           (fun _ => true) (fun _ => Some [1; 2; 3]) (fun _ _ _ d => d)
           (fun _ => None) (fun _ => None) 0%nat [] [] 0%nat ["datos.zip"]
           Driver.init_stats).
  reflexivity.
Defined.

(** * Further properties of the code *)

(** ** [bulk_insert_optimized]: the paths that end early *)

Section LoaderPaths.
Import Mongo Loader Log Partitioner.
Context {Doc St : Type}.
Variable insert_many : InsertMany Doc St.
Variable clock : nat -> Q.

Lemma chunk_documents_negative (B : Z) (documents : list Doc) :
  B < 0 -> chunk_documents B documents = Ret [].
Proof.
  intros HB. unfold chunk_documents, py_range, range_len.
  destruct (B =? 0) eqn:E; [apply Z.eqb_eq in E; lia|].
  destruct (0 <? B) eqn:E1; [apply Z.ltb_lt in E1; lia|].
  destruct (len documents <? 0) eqn:E2;
    [apply Z.ltb_lt in E2; unfold len in E2; lia|].
  reflexivity.
Qed.

(** X1. Without a collection, a non-empty load makes no call to the store and
    returns the single message of the outer handler; the loader keeps its
    counters and its old [end_time], but [start_time] has already been
    overwritten. *)
Theorem bulk_insert_optimized_not_connected (self : OptimizedBulkLoader)
    (documents : list Doc) (ordered bypass : bool) (w : World Doc St) :
  documents <> [] ->
  collection (conn w) = None ->
  let '(res, self', w') :=
    bulk_insert_optimized insert_many clock self documents ordered bypass w in
  res = mkResult 0 [Message "No hay conexión a MongoDB"] None /\
  calls w' = calls w /\ server w' = server w /\
  start_time (stats self') = Some (clock (reads w)) /\
  end_time (stats self') = end_time (stats self) /\
  total_inserted (stats self') = total_inserted (stats self) /\
  total_errors (stats self') = total_errors (stats self) /\
  batches_processed (stats self') = batches_processed (stats self).
Proof.
  intros Hd Hc. destruct documents as [|d documents]; [congruence|].
  unfold bulk_insert_optimized. cbn [now conn]. rewrite Hc.
  cbn. repeat split; reflexivity.
Qed.

(** X2. With batch size 0 on a connected collection, the size announced to the
    progress bar divides by zero before the first batch is asked for: no
    call is made, the result is one message and no [batches_processed]
    key, and neither the counters nor [end_time] change. *)
Theorem bulk_insert_optimized_zero_batch_size (self : OptimizedBulkLoader)
    (documents : list Doc) (ordered bypass : bool) (w : World Doc St) :
  documents <> [] ->
  collection (conn w) <> None ->
  batch_size self = 0 ->
  let '(res, self', w') :=
    bulk_insert_optimized insert_many clock self documents ordered bypass w in
  inserted_count res = 0 /\
  (exists msg, errors res = [Message msg]) /\
  result_batches_processed res = None /\
  calls w' = calls w /\
  end_time (stats self') = end_time (stats self) /\
  total_inserted (stats self') = total_inserted (stats self) /\
  batches_processed (stats self') = batches_processed (stats self).
Proof.
  intros Hd Hc HB. destruct documents as [|d documents]; [congruence|].
  unfold bulk_insert_optimized. cbn [now conn].
  destruct (collection (conn w)); [|congruence].
  cbn [set_start_time batch_size]. rewrite HB. cbn.
  repeat split; try reflexivity. eexists. reflexivity.
Qed.

(** X3. A negative batch size is not an error for the loader: the run ends
    normally having made no call at all; it reports zero inserted and no
    error, and the documents are simply not loaded. *)
Theorem bulk_insert_optimized_negative_batch_size
    (self : OptimizedBulkLoader) (documents : list Doc)
    (ordered bypass : bool) (w : World Doc St) :
  documents <> [] ->
  collection (conn w) <> None ->
  batch_size self < 0 ->
  let '(res, self', w') :=
    bulk_insert_optimized insert_many clock self documents ordered bypass w in
  res = mkResult 0 [] (Some (batches_processed (stats self))) /\
  calls w' = calls w /\
  total_inserted (stats self') = 0 /\
  total_errors (stats self') = 0 /\
  end_time (stats self') = Some (clock (S (reads w))).
Proof.
  intros Hd Hc HB.
  rewrite (bulk_insert_optimized_normal insert_many clock self documents
             ordered bypass w [])
    by (assumption || lia || (apply chunk_documents_negative; assumption)).
  cbn. rewrite Z.add_0_r, app_nil_r. repeat split; reflexivity.
Qed.

End LoaderPaths.

(** ** [bulk_insert_optimized]: what reaches the store and what is counted *)

Section LoaderRuns.
Import Mongo Loader Log Partitioner.
Context {Doc St : Type}.
Variable insert_many : InsertMany Doc St.
Variable clock : nat -> Q.

Lemma serve_forall (P : list Doc -> Prop) (ordered bypass : bool)
    (batches : list (list Doc)) :
  Forall P batches ->
  forall s,
    Forall (fun c => call_ordered c = ordered /\ call_bypass c = bypass /\
                     P (call_batch c))
           (fst (serve insert_many ordered bypass s batches)).
Proof.
  induction 1 as [|batch rest Hb _ IH]; intros s; cbn [serve].
  - constructor.
  - destruct (insert_many s batch ordered bypass) as [reply s1].
    specialize (IH s1).
    destruct (serve insert_many ordered bypass s1 rest) as [log s2].
    cbn [fst] in *. constructor; [cbn; auto | exact IH].
Qed.

Lemma windows_bounds (B : Z) (documents : list Doc) :
  0 < B ->
  Forall (fun batch => 0 < len batch <= B)
    (map (fun j => firstn (Z.to_nat B)
                     (skipn (j * Z.to_nat B)%nat documents))
         (seq 0 (Z.to_nat (ceil_div (len documents) B)))).
Proof.
  intros HB.
  assert (HN : 0 <= len documents) by (unfold len; lia).
  pose proof (ceil_div_spec (len documents) B HN HB) as C.
  set (K := ceil_div (len documents) B) in *.
  apply Forall_forall. intros batch Hin.
  apply in_map_iff in Hin. destruct Hin as (j & <- & Hj).
  apply in_seq in Hj. unfold len at 1 2. rewrite window_length.
  assert (Hjb : Z.of_nat (j * Z.to_nat B) = Z.of_nat j * B)
    by (rewrite Nat2Z.inj_mul; lia).
  assert (Z.of_nat j * B <= B * (K - 1)) by nia.
  unfold len in *. lia.
Qed.

Lemma sum_len_concat (batches : list (list Doc)) :
  sum (map len batches) = len (List.concat batches).
Proof.
  induction batches as [|b rest IH]; [reflexivity|].
  cbn [map List.concat]. rewrite sum_cons, IH.
  unfold len. rewrite length_app. lia.
Qed.

(** X4. Every call of a run carries the flags the caller gave, and a batch
    that is neither empty nor longer than the batch size. *)
Theorem every_call_is_a_bounded_batch (self : OptimizedBulkLoader)
    (documents : list Doc) (ordered bypass : bool) (w : World Doc St) :
  exists new : list (Call Doc),
    calls (snd (bulk_insert_optimized insert_many clock self documents
                  ordered bypass w))
    = calls w ++ new /\
    Forall (fun c => call_ordered c = ordered /\ call_bypass c = bypass /\
                     0 < len (call_batch c) <= batch_size self)
           new.
Proof.
  destruct documents as [|d documents].
  { exists []. cbn. rewrite app_nil_r. split; constructor. }
  destruct (collection (conn w)) eqn:Ec.
  2:{ exists []. unfold bulk_insert_optimized. cbn [now conn].
      rewrite Ec. cbn. rewrite app_nil_r. split; constructor. }
  destruct (Z.lt_trichotomy (batch_size self) 0) as [HB | [HB | HB]].
  - exists [].
    rewrite (bulk_insert_optimized_normal insert_many clock self
               (d :: documents) ordered bypass w [])
      by (congruence || lia || (apply chunk_documents_negative; assumption)).
    cbn. split; constructor.
  - exists []. unfold bulk_insert_optimized. cbn [now conn].
    rewrite Ec. cbn [set_start_time batch_size]. rewrite HB. cbn.
    rewrite app_nil_r. split; constructor.
  - eexists.
    rewrite (bulk_insert_optimized_normal insert_many clock self
               (d :: documents) ordered bypass w _)
      by (congruence || lia || (apply chunk_documents_windows; assumption)).
    cbn [snd calls]. split; [reflexivity|].
    apply (serve_forall (fun b => 0 < len b <= batch_size self)).
    apply windows_bounds. assumption.
Qed.

Section StoreAssumptions.
Variables (ordered bypass : bool).

Lemma serve_reliable (batches : list (list Doc)) :
  (forall s b, exists ids,
      fst (insert_many s b ordered bypass) = InsertManyResult ids /\
      len ids = len b) ->
  forall s,
    let new := fst (serve insert_many ordered bypass s batches) in
    sum (map call_inserted new) = sum (map len batches) /\
    flat_map call_errors new = [] /\
    len (filter fully_inserted new) = len batches.
Proof.
  intros Hrel. induction batches as [|batch rest IH]; intros s; cbn [serve].
  - repeat split; reflexivity.
  - destruct (Hrel s batch) as (ids & Hr & Hl).
    destruct (insert_many s batch ordered bypass) as [reply s1].
    cbn [fst] in Hr. subst reply.
    specialize (IH s1). cbv zeta in IH.
    destruct (serve insert_many ordered bypass s1 rest) as [log s2].
    cbn [fst] in *. destruct IH as (IH1 & IH2 & IH3).
    cbn -[Z.add len sum]. rewrite !sum_cons, !len_cons, IH1, IH2, IH3.
    unfold call_inserted. cbn [call_reply]. repeat split; lia.
Qed.

Lemma serve_honest (batches : list (list Doc)) :
  (forall s b,
      0 <= call_inserted
             (mkCall b ordered bypass (fst (insert_many s b ordered bypass)))
        <= len b) ->
  forall s,
    0 <= sum (map call_inserted
                  (fst (serve insert_many ordered bypass s batches)))
      <= sum (map len batches).
Proof.
  intros Hh. induction batches as [|batch rest IH]; intros s; cbn [serve].
  - cbn. lia.
  - specialize (Hh s batch).
    destruct (insert_many s batch ordered bypass) as [reply s1].
    specialize (IH s1).
    destruct (serve insert_many ordered bypass s1 rest) as [log s2].
    cbn [fst map] in *. rewrite !sum_cons. lia.
Qed.

(** X5. When the store accepts every batch in full, a run with a positive
    batch size on a connected collection inserts every document: the
    reported count is the length of the input, no error is recorded, and
    [batches_processed] grows by [ceil(N/B)]. *)
Theorem reliable_store_inserts_everything (self : OptimizedBulkLoader)
    (documents : list Doc) (w : World Doc St) :
  (forall s b, exists ids,
      fst (insert_many s b ordered bypass) = InsertManyResult ids /\
      len ids = len b) ->
  0 < batch_size self ->
  collection (conn w) <> None ->
  documents <> [] ->
  let '(res, self', w') :=
    bulk_insert_optimized insert_many clock self documents ordered bypass w in
  inserted_count res = len documents /\
  errors res = [] /\
  total_inserted (stats self') = len documents /\
  total_errors (stats self') = 0 /\
  batches_processed (stats self')
  = batches_processed (stats self)
    + ceil_div (len documents) (batch_size self).
Proof.
  intros Hrel HB Hc Hd.
  rewrite (bulk_insert_optimized_normal insert_many clock self documents
             ordered bypass w _)
    by (assumption || lia || (apply chunk_documents_windows; assumption)).
  cbv zeta.
  cbn [inserted_count errors stats total_inserted total_errors
       batches_processed].
  match goal with |- context [serve insert_many ordered bypass ?s ?bs] =>
    destruct (serve_reliable bs Hrel s) as (H1 & H2 & H3);
    pose proof (windows_cover (batch_size self) documents HB) as Hcat;
    pose proof (sum_len_concat bs) as Hsum
  end.
  cbv zeta in H1. rewrite H1, H2, H3, Hsum, Hcat.
  assert (HN : 0 <= len documents) by (unfold len; lia).
  pose proof (ceil_div_spec (len documents) (batch_size self) HN HB).
  repeat split; try reflexivity.
  f_equal. unfold len at 1. rewrite length_map, length_seq. nia.
Qed.

(** X6. When the store never reports more inserted documents than it was
    given (and never a negative number), the count a run returns lies
    between 0 and the number of documents, on every path. *)
Theorem inserted_count_is_bounded (self : OptimizedBulkLoader)
    (documents : list Doc) (w : World Doc St) :
  (forall s b,
      0 <= call_inserted
             (mkCall b ordered bypass (fst (insert_many s b ordered bypass)))
        <= len b) ->
  0 <= inserted_count
         (fst (fst (bulk_insert_optimized insert_many clock self documents
                      ordered bypass w)))
    <= len documents.
Proof.
  intros Hh.
  assert (HN : 0 <= len documents) by (unfold len; lia).
  destruct documents as [|d documents]; [cbn; lia|].
  destruct (collection (conn w)) eqn:Ec.
  2:{ unfold bulk_insert_optimized. cbn [now conn]. rewrite Ec. cbn. lia. }
  destruct (Z.lt_trichotomy (batch_size self) 0) as [HB | [HB | HB]].
  - rewrite (bulk_insert_optimized_normal insert_many clock self
               (d :: documents) ordered bypass w [])
      by (congruence || lia || (apply chunk_documents_negative; assumption)).
    cbn. lia.
  - unfold bulk_insert_optimized. cbn [now conn].
    rewrite Ec. cbn [set_start_time batch_size]. rewrite HB. cbn. lia.
  - rewrite (bulk_insert_optimized_normal insert_many clock self
               (d :: documents) ordered bypass w _)
      by (congruence || lia || (apply chunk_documents_windows; assumption)).
    cbv zeta. cbn [fst inserted_count].
    match goal with |- context [serve insert_many ordered bypass ?s ?bs] =>
      pose proof (serve_honest bs Hh s) as Hs;
      pose proof (sum_len_concat bs) as Hsum
    end.
    rewrite (windows_cover (batch_size self) (d :: documents) HB) in Hsum.
    lia.
Qed.

End StoreAssumptions.

End LoaderRuns.

(** ** Runs one after the other, and the performance report *)

Section LoaderReports.
Import Mongo Loader Log Partitioner.
Context {Doc St : Type}.
Variable insert_many : InsertMany Doc St.
Variable clock : nat -> Q.

(** X7. Two loads with the same loader: after the second, [total_inserted]
    and [total_errors] describe the second load alone, while
    [batches_processed] (in the stats and in the returned dict) counts the
    clean batches of both. *)
Theorem totals_are_per_run_and_batches_accumulate
    (self : OptimizedBulkLoader) (docs1 docs2 : list Doc)
    (o1 p1 o2 p2 : bool) (w : World Doc St) :
  batch_size self <> 0 ->
  collection (conn w) <> None ->
  docs1 <> [] -> docs2 <> [] ->
  let '(res1, self1, w1) :=
    bulk_insert_optimized insert_many clock self docs1 o1 p1 w in
  let '(res2, self2, w2) :=
    bulk_insert_optimized insert_many clock self1 docs2 o2 p2 w1 in
  exists new1 new2 : list (Call Doc),
    calls w1 = calls w ++ new1 /\
    calls w2 = calls w1 ++ new2 /\
    inserted_count res2 = sum (map call_inserted new2) /\
    total_inserted (stats self2) = inserted_count res2 /\
    total_errors (stats self2) = len (errors res2) /\
    batches_processed (stats self2)
    = batches_processed (stats self)
      + len (filter fully_inserted new1) + len (filter fully_inserted new2) /\
    result_batches_processed res2 = Some (batches_processed (stats self2)).
Proof.
  intros HB Hc H1 H2.
  destruct (chunk_documents_nonzero (batch_size self) docs1 HB)
    as [batches1 Hb1].
  destruct (chunk_documents_nonzero (batch_size self) docs2 HB)
    as [batches2 Hb2].
  rewrite (bulk_insert_optimized_normal insert_many clock self docs1
             o1 p1 w batches1) by assumption.
  cbv beta iota zeta.
  rewrite (bulk_insert_optimized_normal insert_many clock _ docs2
             o2 p2 _ batches2) by assumption.
  cbv zeta. cbn [calls server stats batch_size batches_processed
                 total_inserted total_errors inserted_count errors
                 result_batches_processed].
  eexists. eexists. repeat split; reflexivity.
Qed.

Lemma performance_report (round : Q -> Z -> Q)
    (self : OptimizedBulkLoader) (t0 t1 : Q) :
  start_time (stats self) = Some t0 ->
  end_time (stats self) = Some t1 ->
  exists p,
    get_performance_stats round self = Ret (inl p) /\
    perf_total_inserted p = total_inserted (stats self) /\
    perf_total_errors p = total_errors (stats self) /\
    perf_batches_processed p = batches_processed (stats self) /\
    batch_size_used p = batch_size self /\
    duration_seconds p = (t1 - t0)%Q /\
    (Qpositive (t1 - t0) = false ->
     documents_per_second p = round 0%Q 2) /\
    (batches_processed (stats self) <= 0 ->
     average_batch_time p = 0%Q).
Proof.
  intros H0 H1.
  pose proof (get_performance_stats_never_raises round self) as Hnr.
  unfold get_performance_stats in *. rewrite H0, H1 in *.
  rewrite guarded_rate in *.
  destruct (Qpositive (t1 - t0)) eqn:Ep; cbn [bind] in *;
    destruct (0 <? batches_processed (stats self)) eqn:Eb;
    try (destruct (py_truediv (t1 - t0) _) as [q|e]; cbn [bind] in *;
         [|discriminate]);
    eexists; (split; [reflexivity|]); cbn;
    repeat split; try reflexivity; intros; try discriminate;
    try (apply Z.ltb_lt in Eb; lia).
Qed.

(** X8. [get_performance_stats] never raises.  It hands back the raw stats
    when a time stamp is missing; otherwise it reports the stored totals
    and the duration between the two stamps, with a rate of [round(0, 2)]
    when that duration is not positive and an average of 0 when no batch
    was counted. *)
Theorem get_performance_stats_shape (round : Q -> Z -> Q)
    (self : OptimizedBulkLoader) :
  (start_time (stats self) = None \/ end_time (stats self) = None ->
   get_performance_stats round self = Ret (inr (stats self))) /\
  (forall t0 t1,
      start_time (stats self) = Some t0 ->
      end_time (stats self) = Some t1 ->
      exists p,
        get_performance_stats round self = Ret (inl p) /\
        perf_total_inserted p = total_inserted (stats self) /\
        perf_total_errors p = total_errors (stats self) /\
        perf_batches_processed p = batches_processed (stats self) /\
        batch_size_used p = batch_size self /\
        duration_seconds p = (t1 - t0)%Q /\
        (Qpositive (t1 - t0) = false ->
         documents_per_second p = round 0%Q 2) /\
        (batches_processed (stats self) <= 0 ->
         average_batch_time p = 0%Q)).
Proof.
  split.
  - intros [H | H]; unfold get_performance_stats; rewrite H;
      [|destruct (start_time (stats self))]; reflexivity.
  - apply performance_report.
Qed.

(** X9. After a load that ran its loop, the report of
    [get_performance_stats] carries that load's [inserted_count], its
    number of error entries, and the time between the two clock readings
    of the load. *)
Theorem report_after_a_load (round : Q -> Z -> Q)
    (self : OptimizedBulkLoader) (documents : list Doc)
    (ordered bypass : bool) (w : World Doc St) :
  batch_size self <> 0 ->
  collection (conn w) <> None ->
  documents <> [] ->
  let '(res, self', w') :=
    bulk_insert_optimized insert_many clock self documents ordered bypass w in
  exists p,
    get_performance_stats round self' = Ret (inl p) /\
    perf_total_inserted p = inserted_count res /\
    perf_total_errors p = len (errors res) /\
    Some (perf_batches_processed p) = result_batches_processed res /\
    batch_size_used p = batch_size self /\
    duration_seconds p = (clock (S (reads w)) - clock (reads w))%Q.
Proof.
  intros HB Hc Hd.
  destruct (chunk_documents_nonzero (batch_size self) documents HB)
    as [batches Hb].
  rewrite (bulk_insert_optimized_normal insert_many clock self documents
             ordered bypass w batches) by assumption.
  cbv beta iota zeta.
  match goal with |- context [get_performance_stats round ?l] =>
    destruct (performance_report round l _ _ eq_refl eq_refl)
      as (p & Hp & H1 & H2 & H3 & H4 & H5 & _)
  end.
  exists p. cbn in *. repeat split; congruence.
Qed.

End LoaderReports.

(** ** [optimized_bulk_insert]: what it counts and what it shows *)

Section CargadorCounts.
Import Mongo Log.
Context {Doc St : Type}.
Variable insert_many : InsertMany Doc St.
Variable clock : nat -> Q.

Lemma inject_Z_nonzero (n : Z) : n <> 0 -> Qeq_bool (inject_Z n) 0 = false.
Proof.
  intros Hn. destruct (Qeq_bool (inject_Z n) 0) eqn:E; [|reflexivity].
  apply Qeq_bool_iff in E. unfold Qeq, inject_Z in E. cbn in E. lia.
Qed.

Lemma len_app {A} (l1 l2 : list A) : len (l1 ++ l2) = len l1 + len l2.
Proof. unfold len. rewrite length_app. lia. Qed.

Lemma sum_app (l1 l2 : list Z) : sum (l1 ++ l2) = sum l1 + sum l2.
Proof.
  induction l1 as [|x l1 IH]; [reflexivity|].
  cbn [app]. rewrite !sum_cons, IH. lia.
Qed.

(** What one turn adds to the count and to the progress lines. *)
Lemma cargador_loop_body_counts (documents : list Doc) (B : Z) (t0 : Q)
    (inserted_count : Z) (out : list Cargador.Progress)
    (w : World Doc St) (i : Z) :
  let c := mkCall (py_slice documents i (i + B)) false true
             (fst (insert_many (server w)
                     (py_slice documents i (i + B)) false true)) in
  let '(inserted_count', out', _) :=
    Cargador.loop_body insert_many clock documents B t0
      (inserted_count, out, w) i in
  inserted_count'
  = inserted_count + sum (map call_inserted (filter fully_inserted [c])) /\
  (len documents <> 0 ->
   len out' = len out + len (filter fully_inserted [c])).
Proof.
  unfold Cargador.loop_body, call_insert_many.
  destruct (insert_many (server w) _ false true) as [reply s1].
  destruct reply as [ids | details | e]; cbn [fst snd];
    unfold fully_inserted, call_inserted; cbn -[Z.add len sum py_truediv];
    [| split; intros; cbn; lia ..].
  rewrite sum_cons. cbn [sum fold_right]. rewrite len_cons.
  unfold py_truediv at 1.
  destruct (Qeq_bool (inject_Z (len documents)) 0) eqn:E.
  - split; [lia|]. intros Hn. rewrite (inject_Z_nonzero _ Hn) in E.
    discriminate.
  - cbn [now]. rewrite guarded_rate.
    destruct (Qpositive _); (split; [lia|]); intros _;
      rewrite len_app; cbn; lia.
Qed.

Lemma cargador_loop_counts (documents : list Doc) (B : Z) (t0 : Q)
    (starts : list Z) :
  forall inserted_count out w,
    let new :=
      fst (serve insert_many false true (server w)
             (map (fun i => py_slice documents i (i + B)) starts)) in
    let '(inserted_count', out', _) :=
      fold_left (Cargador.loop_body insert_many clock documents B t0)
                starts (inserted_count, out, w) in
    inserted_count'
    = inserted_count + sum (map call_inserted (filter fully_inserted new)) /\
    (len documents <> 0 ->
     len out' = len out + len (filter fully_inserted new)).
Proof.
  induction starts as [|i rest IH]; intros inserted_count out w.
  - cbn. split; intros; lia.
  - cbn [fold_left map serve].
    pose proof (cargador_loop_body_counts documents B t0 inserted_count
                  out w i) as Hc.
    pose proof (cargador_loop_body_call insert_many clock documents B t0
                  inserted_count out w i) as Hw.
    destruct (Cargador.loop_body insert_many clock documents B t0
                (inserted_count, out, w) i) as [[ic1 out1] w1].
    cbv zeta in Hc, Hw. cbn [snd] in Hw.
    destruct Hc as (Hic & Hout). destruct Hw as (_ & _ & Hs & _).
    specialize (IH ic1 out1 w1). cbv zeta in IH. rewrite Hs in IH.
    destruct (insert_many (server w) _ false true) as [reply s1].
    cbn [fst snd] in *.
    destruct (serve insert_many false true s1 _) as [log s2].
    cbn [fst] in *.
    destruct (fold_left _ rest _) as [[ic2 out2] w2].
    destruct IH as (IHic & IHout).
    change (?c :: log) with ([c] ++ log).
    rewrite filter_app, map_app, sum_app, len_app.
    split; [lia|]. intros Hn. specialize (Hout Hn). specialize (IHout Hn).
    lia.
Qed.

Lemma range_of_nothing (B : Z) :
  B <> 0 -> py_range 0 0 B = Ret [].
Proof.
  intros HB. unfold py_range, range_len.
  destruct (B =? 0) eqn:E; [apply Z.eqb_eq in E; contradiction|].
  destruct (0 <? B); reflexivity.
Qed.

Lemma range_backwards (n B : Z) :
  0 <= n -> B < 0 -> py_range 0 n B = Ret [].
Proof.
  intros Hn HB. unfold py_range, range_len.
  destruct (B =? 0) eqn:E; [apply Z.eqb_eq in E; lia|].
  destruct (0 <? B) eqn:E1; [apply Z.ltb_lt in E1; lia|].
  destruct (n <? 0) eqn:E2; [apply Z.ltb_lt in E2; lia|].
  reflexivity.
Qed.

(** One statement for every path of [optimized_bulk_insert]. *)
Lemma optimized_bulk_insert_summary (documents : list Doc) (B : Z)
    (w : World Doc St) :
  exists new : list (Call Doc),
    let '(r, out, w') :=
      Cargador.optimized_bulk_insert insert_many clock documents B w in
    calls w' = calls w ++ new /\
    Forall (fun c => call_ordered c = false /\ call_bypass c = true) new /\
    len out = len (filter fully_inserted new) /\
    (forall n, r = Ret n ->
               n = sum (map call_inserted (filter fully_inserted new))) /\
    (B = 0 -> r = Raise (ValueError "range() arg 3 must not be zero") /\
              new = []) /\
    (B < 0 -> new = []).
Proof.
  assert (HN : 0 <= len documents) by (unfold len; lia).
  unfold Cargador.optimized_bulk_insert.
  destruct (Z.eq_dec B 0) as [E | E].
  { subst B. exists []. cbn. rewrite app_nil_r.
    repeat split; try constructor; intros; try lia; discriminate. }
  destruct (Z.eq_dec (len documents) 0) as [H0 | H0].
  { exists []. rewrite H0, range_of_nothing by assumption.
    cbn [now fold_left]. destruct (py_truediv _ _); cbn;
      rewrite app_nil_r; repeat split; try constructor; intros;
      try lia; congruence. }
  destruct (py_range 0 (len documents) B) as [starts|e] eqn:Er.
  2:{ unfold py_range in Er.
      destruct (B =? 0) eqn:E0; [apply Z.eqb_eq in E0; contradiction|].
      discriminate. }
  set (batches := map (fun i => py_slice documents i (i + B)) starts).
  exists (fst (serve insert_many false true (server w) batches)).
  cbn [now].
  pose proof (cargador_loop_serves insert_many clock documents B
                (clock (reads w)) starts 0 []
                (mkWorld (conn w) (server w) (calls w) (net w)
                         (S (reads w)))) as Hs.
  pose proof (cargador_loop_counts documents B (clock (reads w)) starts
                0 []
                (mkWorld (conn w) (server w) (calls w) (net w)
                         (S (reads w)))) as Hc.
  cbv zeta in Hs, Hc. cbn [server calls conn net] in Hs, Hc.
  fold batches in Hs, Hc.
  assert (Hflags : Forall (fun c : Call Doc =>
                             call_ordered c = false /\ call_bypass c = true)
                          (fst (serve insert_many false true (server w)
                                  batches))).
  { pose proof (serve_forall insert_many (fun _ => True) false true batches
                  ltac:(apply Forall_forall; intros; exact I) (server w))
      as F.
    eapply Forall_impl; [|exact F]. cbn. tauto. }
  assert (Hneg : B < 0 ->
                 fst (serve insert_many false true (server w) batches) = []).
  { intros HB. rewrite range_backwards in Er by assumption.
    injection Er as <-. reflexivity. }
  destruct (fold_left _ starts _) as [[ic out] w1].
  cbn [snd] in Hs. destruct Hs as (_ & _ & _ & Hl).
  destruct Hc as (Hic & Hout). specialize (Hout H0).
  cbn [len List.length] in Hout. cbn [now].
  destruct (py_truediv _ _); cbn [calls];
    repeat split; try assumption; try lia; intros; try discriminate;
    try congruence;
    match goal with R : Ret _ = Ret _ |- _ => injection R as <-; lia end.
Qed.

(** X10. The count [optimized_bulk_insert] returns, when it returns, adds up
    the batches the store accepted without raising and nothing else: what
    a partial failure did insert is not counted.  Every call is unordered
    and bypasses validation. *)
Theorem optimized_bulk_insert_counts_clean_batches_only
    (documents : list Doc) (B : Z) (w : World Doc St) :
  exists new : list (Call Doc),
    let '(r, out, w') :=
      Cargador.optimized_bulk_insert insert_many clock documents B w in
    calls w' = calls w ++ new /\
    Forall (fun c => call_ordered c = false /\ call_bypass c = true) new /\
    (forall n, r = Ret n ->
               n = sum (map call_inserted (filter fully_inserted new))).
Proof.
  destruct (optimized_bulk_insert_summary documents B w) as [new H].
  exists new.
  destruct (Cargador.optimized_bulk_insert _ _ _ _ _) as [[r out] w'].
  tauto.
Qed.

(** X11. The progress display never costs a batch its line: there is exactly
    one progress line per batch the store accepted without raising, on
    every path. *)
Theorem one_progress_line_per_clean_batch
    (documents : list Doc) (B : Z) (w : World Doc St) :
  exists new : list (Call Doc),
    let '(r, out, w') :=
      Cargador.optimized_bulk_insert insert_many clock documents B w in
    calls w' = calls w ++ new /\
    len out = len (filter fully_inserted new).
Proof.
  destruct (optimized_bulk_insert_summary documents B w) as [new H].
  exists new.
  destruct (Cargador.optimized_bulk_insert _ _ _ _ _) as [[r out] w'].
  tauto.
Qed.

(** X12. Batch sizes that are not positive: with 0 the call ends with the
    [ValueError] of [range], with a negative size the loop has no turn;
    either way the store is never called. *)
Theorem optimized_bulk_insert_bad_batch_size
    (documents : list Doc) (B : Z) (w : World Doc St) :
  B <= 0 ->
  let '(r, out, w') :=
    Cargador.optimized_bulk_insert insert_many clock documents B w in
  calls w' = calls w /\ out = [] /\
  (B = 0 -> r = Raise (ValueError "range() arg 3 must not be zero")) /\
  (forall n, r = Ret n -> n = 0).
Proof.
  intros HB.
  destruct (optimized_bulk_insert_summary documents B w) as [new H].
  destruct (Cargador.optimized_bulk_insert _ _ _ _ _) as [[r out] w'].
  destruct H as (Hl & _ & Hout & Hn & H0 & Hneg).
  assert (new = []) as ->.
  { destruct (Z.eq_dec B 0) as [E | E]; [apply H0, E | apply Hneg; lia]. }
  rewrite app_nil_r in Hl. cbn in Hout, Hn.
  repeat split; try assumption.
  - destruct out; [reflexivity|]. rewrite len_cons in Hout.
    unfold len in Hout. lia.
  - intros E. apply H0, E.
Qed.

End CargadorCounts.

(** ** The connection and the archive driver *)

Section DriverRuns.
Import Mongo Driver.
Context {Doc St : Type}.
Variable insert_many : InsertMany Doc St.
Variable clock : nat -> Q.
Variable mongo_client : string -> option exn.
Variable ping : St -> option exn.
Variable validate_zip_file : string -> bool.
Variable process_zip_file : string -> option (list Doc).
Variable update : string -> Q -> Q -> Doc -> Doc.
Variable py_print : Output -> option exn.

(** What [connect] leaves behind, case by case. *)
Lemma connect_cases (w : World Doc St) :
  let '(ok, w') := connect mongo_client ping w in
  calls w' = calls w /\ server w' = server w /\ reads w' = reads w /\
  (ok = true ->
   exists uri,
     mongodb_uri (conn w) = Some uri /\
     client (conn w') = Some uri /\
     database (conn w') = Some (database_name (conn w)) /\
     collection (conn w') = Some (collection_name (conn w)) /\
     net w' = net w ++ [MongoClientCalled uri; Pinged]) /\
  (ok = false -> collection (conn w') = collection (conn w)).
Proof.
  unfold connect.
  destruct (falsy (mongodb_uri (conn w))) eqn:Ef.
  { repeat split; try reflexivity. discriminate. }
  destruct (mongodb_uri (conn w)) as [uri|] eqn:Eu; [|discriminate].
  destruct (mongo_client uri).
  { cbn. repeat split; try reflexivity. discriminate. }
  cbn [emit set_conn conn server calls net reads client mongodb_uri
       database collection database_name collection_name].
  destruct (ping (server w)).
  { cbn. repeat split; try reflexivity. discriminate. }
  cbn. repeat split; try reflexivity; try discriminate.
  intros _. exists uri. rewrite <- app_assoc. repeat split; reflexivity.
Qed.

(** X13. On a connection that has no collection yet, [connect] returns [True]
    exactly when it leaves a collection handle behind; it never writes to
    the store, and a successful call has built one client and sent one
    ping. *)
Theorem connect_succeeds_iff_collection_is_set (w : World Doc St) :
  collection (conn w) = None ->
  let '(ok, w') := connect mongo_client ping w in
  (ok = true <-> collection (conn w') <> None) /\
  calls w' = calls w /\
  (ok = true ->
   exists uri, mongodb_uri (conn w) = Some uri /\
               net w' = net w ++ [MongoClientCalled uri; Pinged]).
Proof.
  intros Hn. pose proof (connect_cases w) as H.
  destruct (connect mongo_client ping w) as [ok w'].
  destruct H as (Hc & _ & _ & Ht & Hf). repeat split; try assumption.
  - intros E. destruct (Ht E) as (uri & _ & _ & _ & Hcol & _).
    rewrite Hcol. discriminate.
  - intros Hcol. destruct ok; [reflexivity|].
    rewrite (Hf eq_refl), Hn in Hcol. contradiction.
  - intros E. destruct (Ht E) as (uri & Hu & _ & _ & _ & Hnet).
    exists uri. split; assumption.
Qed.

(** X14. [run] always goes through [disconnect]: whenever the connection
    object holds a client when [run] returns, the last thing sent was the
    closing of that client. *)
Theorem run_closes_the_client (zip_paths : list string)
    (stats : Stats) (w : World Doc St) :
  let '(_, (_, w')) :=
    run insert_many clock mongo_client ping validate_zip_file
        process_zip_file update py_print zip_paths (stats, w) in
  client (conn w') <> None ->
  exists events, net w' = events ++ [ClientClosed].
Proof.
  unfold run.
  destruct (connect mongo_client ping w) as [ok w1].
  destruct ok; cbn [negb].
  - destruct (process_zip_files _ _ _ _ _ _ _ _) as [stats2 w2].
    unfold disconnect. destruct (client (conn w2)) eqn:E.
    + intros _. eexists. reflexivity.
    + rewrite E. congruence.
  - unfold disconnect. destruct (client (conn w1)) eqn:E.
    + intros _. eexists. reflexivity.
    + rewrite E. congruence.
Qed.

End DriverRuns.

(** ** Accounting of the archives *)

Section DriverAccounting.
Import Mongo Driver Uploaded.
Context {Doc St : Type}.
Variable insert_many : InsertMany Doc St.
Variable clock : nat -> Q.
Variable validate_zip_file : string -> bool.
Variable process_zip_file : string -> option (list Doc).
Variable update : string -> Q -> Q -> Doc -> Doc.
Variable py_print : Output -> option exn.

Let invalid_zip (zip_path : string) : string * string :=
  (zip_path, "Archivo ZIP inválido o corrupto").

Lemma validate_zip_files_fold (zip_paths : list string) :
  forall valid stats,
    let '(valid', stats') :=
      fold_left
        (fun '(valid_zips, stats) zip_path =>
           if validate_zip_file zip_path
           then (valid_zips ++ [zip_path], stats)
           else (valid_zips,
                 mkStats (total_zips_processed stats)
                   (total_files_uploaded stats) (total_errors stats)
                   (start_time stats) (end_time stats)
                   (failed_zips stats ++ [invalid_zip zip_path])
                   (uploaded_files stats)))
        zip_paths (valid, stats) in
    valid' = valid ++ filter validate_zip_file zip_paths /\
    failed_zips stats'
    = failed_zips stats
      ++ map invalid_zip
           (filter (fun z => negb (validate_zip_file z)) zip_paths) /\
    total_zips_processed stats' = total_zips_processed stats /\
    total_files_uploaded stats' = total_files_uploaded stats /\
    total_errors stats' = total_errors stats /\
    start_time stats' = start_time stats /\
    end_time stats' = end_time stats /\
    uploaded_files stats' = uploaded_files stats.
Proof.
  induction zip_paths as [|z rest IH]; intros valid stats.
  - cbn. rewrite !app_nil_r. repeat split; reflexivity.
  - cbn [fold_left filter].
    destruct (validate_zip_file z) eqn:Ev; cbn [negb].
    + specialize (IH (valid ++ [z]) stats).
      destruct (fold_left _ rest _) as [valid' stats'].
      destruct IH as (-> & IH). rewrite <- app_assoc. split; [reflexivity|].
      exact IH.
    + match goal with |- context [fold_left ?f rest (valid, ?s)] =>
        specialize (IH valid s) end.
      destruct (fold_left _ rest _) as [valid' stats'].
      cbn [failed_zips total_zips_processed total_files_uploaded
           total_errors start_time end_time uploaded_files map] in IH.
      destruct IH as (-> & -> & IH). rewrite <- app_assoc.
      repeat split; try reflexivity; apply IH.
Qed.

(** What one archive does to the stats and to the world: at most one
    call, at most one entry of [failed_zips] (from the handler). *)
Lemma process_single_zip_effect (zip_path : string) (stats : Stats)
    (w : World Doc St) :
  let '(result, (stats', w')) :=
    process_single_zip Doc St insert_many clock process_zip_file update
                       py_print zip_path (stats, w) in
  conn w' = conn w /\ net w' = net w /\
  total_zips_processed stats' = total_zips_processed stats /\
  total_errors stats' = total_errors stats /\
  start_time stats' = start_time stats /\
  end_time stats' = end_time stats /\
  exists (new : list (Call Doc)) (failed : list (string * string)),
    calls w' = calls w ++ new /\
    len new <= 1 /\
    Forall (fun c => call_ordered c = true /\ call_bypass c = false /\
                     call_batch c <> []) new /\
    uploaded_files stats' = uploaded_files stats ++ flat_map call_ids new /\
    total_files_uploaded stats'
    = total_files_uploaded stats + len (flat_map call_ids new) /\
    failed_zips stats' = failed_zips stats ++ failed /\
    len failed <= 1 /\
    Forall (fun f => fst f = zip_path) failed /\
    (failed <> [] -> result = None) /\
    ((forall o, py_print o = None) ->
     failed = [] /\ (flat_map call_ids new <> [] -> result <> None)).
Proof.
  assert (Hquiet : forall (r : option Upload) (st : Stats) (x : World Doc St),
             conn x = conn w -> net x = net w -> calls x = calls w ->
             total_zips_processed st = total_zips_processed stats ->
             total_errors st = total_errors stats ->
             start_time st = start_time stats ->
             end_time st = end_time stats ->
             uploaded_files st = uploaded_files stats ->
             total_files_uploaded st = total_files_uploaded stats ->
             forall failed,
               failed_zips st = failed_zips stats ++ failed ->
               len failed <= 1 ->
               Forall (fun f => fst f = zip_path) failed ->
               (failed <> [] -> r = None) ->
               ((forall o, py_print o = None) -> failed = []) ->
               conn x = conn w /\ net x = net w /\
               total_zips_processed st = total_zips_processed stats /\
               total_errors st = total_errors stats /\
               start_time st = start_time stats /\
               end_time st = end_time stats /\
               exists (new : list (Call Doc))
                      (failed : list (string * string)),
                 calls x = calls w ++ new /\
                 len new <= 1 /\
                 Forall (fun c => call_ordered c = true /\
                                  call_bypass c = false /\
                                  call_batch c <> []) new /\
                 uploaded_files st
                 = uploaded_files stats ++ flat_map call_ids new /\
                 total_files_uploaded st
                 = total_files_uploaded stats
                   + len (flat_map call_ids new) /\
                 failed_zips st = failed_zips stats ++ failed /\
                 len failed <= 1 /\
                 Forall (fun f => fst f = zip_path) failed /\
                 (failed <> [] -> r = None) /\
                 ((forall o, py_print o = None) ->
                  failed = [] /\
                  (flat_map call_ids new <> [] -> r <> None))).
  { intros r st x Hc Hn Hl Hz He Hs Hen Hu Ht failed Hf Hlen Hfst Hr Hq.
    repeat (split; [assumption|]). exists [], failed.
    rewrite app_nil_r. cbn [flat_map]. rewrite app_nil_r.
    repeat (split; [assumption || (cbn; lia) || constructor|]).
    intros Hp. split; [apply Hq, Hp | congruence]. }
  unfold process_single_zip.
  destruct (py_print (Procesando zip_path)) as [e|] eqn:Ep.
  { apply Hquiet with (failed := [(zip_path, str e)]);
      try reflexivity; try (cbn; lia).
    - repeat constructor.
    - intros Hp. rewrite Hp in Ep. discriminate. }
  destruct (process_zip_file zip_path) as [processed_files|].
  2:{ apply Hquiet with (failed := []); try reflexivity;
        try (cbn; lia); try (rewrite app_nil_r; reflexivity);
        try constructor; congruence. }
  cbn [now].
  destruct (map _ processed_files) as [|d documents] eqn:Ed.
  { apply Hquiet with (failed := []); try reflexivity;
      try (cbn; lia); try (rewrite app_nil_r; reflexivity);
      try constructor; congruence. }
  unfold insert_multiple_files. cbn [conn].
  destruct (collection (conn w)).
  2:{ apply Hquiet with (failed := []); try reflexivity;
        try (cbn; lia); try (rewrite app_nil_r; reflexivity);
        try constructor; congruence. }
  unfold call_insert_many. cbn [server conn calls net reads].
  destruct (insert_many (server w) (d :: documents) true false)
    as [reply s1].
  assert (Hflags : forall r,
             Forall (fun c : Call Doc =>
                       call_ordered c = true /\ call_bypass c = false /\
                       call_batch c <> [])
                    [mkCall (d :: documents) true false r]).
  { intros r. repeat constructor. cbn. congruence. }
  destruct reply as [[|i ids] | details | e];
    [ | destruct (py_print (Cargados _ zip_path)) as [e|] eqn:Ep2 | | ];
    cbn [conn net calls total_zips_processed total_errors start_time
         end_time failed_zips uploaded_files total_files_uploaded];
    repeat (split; [reflexivity|]);
    [ match goal with |- context [calls w ++ [?c]] => exists [c], [] end
    | match goal with |- context [calls w ++ [?c]] =>
        exists [c], [(zip_path, str e)] end
    | match goal with |- context [calls w ++ [?c]] => exists [c], [] end
    | match goal with |- context [calls w ++ [?c]] => exists [c], [] end
    | match goal with |- context [calls w ++ [?c]] => exists [c], [] end ];
    unfold call_ids; cbn [flat_map call_reply]; rewrite ?app_nil_r;
    repeat (split; [reflexivity || (cbn; lia) || apply Hflags
                    || (repeat constructor)|]);
    intros; repeat split; intros;
    try reflexivity; try congruence; try discriminate;
    match goal with
    | Hp : forall o, py_print o = None, E : py_print _ = Some _ |- _ =>
        rewrite Hp in E; discriminate
    end.
Qed.

(** The loop of [process_zip_files] over the valid archives. *)
Lemma process_zip_files_loop (valid_zips : list string) :
  forall (stats : Stats) (w : World Doc St),
    let '(stats', w') :=
      fold_left
        (fun st zip_path =>
           let '(result, (stats, w)) :=
             process_single_zip Doc St insert_many clock process_zip_file
                                update py_print zip_path st in
           match result with
           | Some _ =>
               (mkStats (total_zips_processed stats + 1)
                  (total_files_uploaded stats) (total_errors stats)
                  (start_time stats) (end_time stats)
                  (failed_zips stats) (uploaded_files stats), w)
           | None =>
               (mkStats (total_zips_processed stats)
                  (total_files_uploaded stats) (total_errors stats + 1)
                  (start_time stats) (end_time stats)
                  (failed_zips stats) (uploaded_files stats), w)
           end)
        valid_zips (stats, w) in
    conn w' = conn w /\ net w' = net w /\
    start_time stats' = start_time stats /\
    end_time stats' = end_time stats /\
    total_zips_processed stats <= total_zips_processed stats' /\
    total_errors stats <= total_errors stats' /\
    total_zips_processed stats' + total_errors stats'
    = total_zips_processed stats + total_errors stats + len valid_zips /\
    exists (new : list (Call Doc)) (failed : list (string * string)),
      calls w' = calls w ++ new /\
      len new <= len valid_zips /\
      Forall (fun c => call_ordered c = true /\ call_bypass c = false /\
                       call_batch c <> []) new /\
      uploaded_files stats' = uploaded_files stats ++ flat_map call_ids new /\
      total_files_uploaded stats'
      = total_files_uploaded stats + len (flat_map call_ids new) /\
      failed_zips stats' = failed_zips stats ++ failed /\
      len failed <= total_errors stats' - total_errors stats /\
      Forall (fun f => In (fst f) valid_zips) failed /\
      ((forall o, py_print o = None) ->
       failed = [] /\
       (flat_map call_ids new <> [] ->
        total_zips_processed stats < total_zips_processed stats')).
Proof.
  induction valid_zips as [|z rest IH]; intros stats w.
  - cbn [fold_left]. repeat (split; [reflexivity || (cbn; lia)|]).
    exists [], []. rewrite !app_nil_r. cbn [flat_map].
    split; [reflexivity|]. split; [cbn; lia|]. split; [constructor|].
    split; [reflexivity|]. split; [cbn; lia|]. split; [reflexivity|].
    split; [cbn; lia|]. split; [constructor|].
    intros _. split; [reflexivity | congruence].
  - cbn [fold_left].
    pose proof (process_single_zip_effect z stats w) as H1.
    destruct (process_single_zip Doc St insert_many clock process_zip_file
                update py_print z (stats, w)) as [result [stats1 w1]].
    destruct H1 as (Hc & Hn & Hz & He & Hs & Hen
                    & new1 & failed1 & Hl & Hlen & Hfl & Hu & Ht & Hf
                    & Hfl1 & Hfst & Hfr & Hq).
    assert (Hfz : Forall (fun f : string * string => In (fst f) (z :: rest))
                         failed1).
    { eapply Forall_impl; [|exact Hfst]. cbn. intros f ->. now left. }
    destruct result as [u|].
    + (* counted as processed: the handler was not entered *)
      match goal with |- context [fold_left ?f rest (?s, w1)] =>
        specialize (IH s w1) end.
      destruct (fold_left _ rest _) as [stats' w'].
      destruct IH as (Hc' & Hn' & Hs' & Hen' & Hz' & He' & Hsum
                      & new2 & failed2 & Hl' & Hlen' & Hfl' & Hu' & Ht'
                      & Hf' & Hfl2 & Hin2 & Hq').
      rewrite len_cons.
      cbn [total_zips_processed total_errors start_time end_time
           failed_zips uploaded_files total_files_uploaded] in *.
      assert (Hin : Forall (fun f : string * string =>
                              In (fst f) (z :: rest))
                           (failed1 ++ failed2)).
      { apply Forall_app. split; [exact Hfz|].
        eapply Forall_impl; [|exact Hin2]. cbn. intros f Hf0. now right. }
      assert (Hnone : failed1 = []).
      { destruct failed1 as [|f1 l1]; [reflexivity|].
        specialize (Hfr ltac:(discriminate)). discriminate. }
      subst failed1. cbn [app] in *. rewrite app_nil_r in Hf.
      repeat (split; [congruence || lia|]).
      exists (new1 ++ new2), failed2.
      rewrite flat_map_app, Hl', Hl, Hu', Hu, Ht', Ht, Hf', Hf,
        !len_app, <- !app_assoc.
      split; [reflexivity|]. split; [lia|].
      split; [apply Forall_app; split; assumption|].
      split; [reflexivity|]. split; [lia|]. split; [reflexivity|].
      split; [lia|]. split; [exact Hin|].
      intros Hp. destruct (Hq' Hp) as [-> Hr2]. split; [reflexivity|].
      intros _. lia.
    + (* counted as an error *)
      match goal with |- context [fold_left ?f rest (?s, w1)] =>
        specialize (IH s w1) end.
      destruct (fold_left _ rest _) as [stats' w'].
      destruct IH as (Hc' & Hn' & Hs' & Hen' & Hz' & He' & Hsum
                      & new2 & failed2 & Hl' & Hlen' & Hfl' & Hu' & Ht'
                      & Hf' & Hfl2 & Hin2 & Hq').
      rewrite len_cons.
      cbn [total_zips_processed total_errors start_time end_time
           failed_zips uploaded_files total_files_uploaded] in *.
      assert (Hin : Forall (fun f : string * string =>
                              In (fst f) (z :: rest))
                           (failed1 ++ failed2)).
      { apply Forall_app. split; [exact Hfz|].
        eapply Forall_impl; [|exact Hin2]. cbn. intros f Hf0. now right. }
      repeat (split; [congruence || lia|]).
      exists (new1 ++ new2), (failed1 ++ failed2).
      rewrite flat_map_app, Hl', Hl, Hu', Hu, Ht', Ht, Hf', Hf,
        !len_app, <- !app_assoc.
      split; [reflexivity|]. split; [lia|].
      split; [apply Forall_app; split; assumption|].
      split; [reflexivity|]. split; [lia|]. split; [reflexivity|].
      split; [lia|]. split; [exact Hin|].
      intros Hp. destruct (Hq Hp) as [-> Hr1].
      destruct (Hq' Hp) as [-> Hr2]. split; [reflexivity|].
      intros Hids.
      destruct (flat_map call_ids new1) as [|i1 ids1] eqn:E1.
      * cbn [app] in Hids. specialize (Hr2 Hids). lia.
      * exfalso. apply Hr1; [discriminate | reflexivity].
Qed.

Lemma filter_split_len {A} (f : A -> bool) (l : list A) :
  len (filter f l) + len (filter (fun x => negb (f x)) l) = len l.
Proof.
  induction l as [|x l IH]; [reflexivity|].
  cbn [filter]. destruct (f x); cbn [negb]; rewrite !len_cons; lia.
Qed.

(** Everything [process_zip_files] does, in one statement. *)
Lemma process_zip_files_effect (zip_paths : list string) (stats : Stats)
    (w : World Doc St) :
  let '(stats', w') :=
    process_zip_files Doc St insert_many clock validate_zip_file
                      process_zip_file update py_print zip_paths
                      (stats, w) in
  let valid := filter validate_zip_file zip_paths in
  conn w' = conn w /\ net w' = net w /\
  start_time stats' = Some (clock (reads w)) /\
  total_zips_processed stats <= total_zips_processed stats' /\
  total_errors stats <= total_errors stats' /\
  total_zips_processed stats' + total_errors stats'
  = total_zips_processed stats + total_errors stats + len valid /\
  (valid = [] -> end_time stats' = end_time stats /\ calls w' = calls w /\
                 failed_zips stats'
                 = failed_zips stats
                   ++ map invalid_zip
                        (filter (fun z => negb (validate_zip_file z))
                                zip_paths)) /\
  exists (new : list (Call Doc)) (raised : list (string * string)),
    calls w' = calls w ++ new /\
    len new <= len valid /\
    Forall (fun c => call_ordered c = true /\ call_bypass c = false /\
                     call_batch c <> []) new /\
    uploaded_files stats' = uploaded_files stats ++ flat_map call_ids new /\
    total_files_uploaded stats'
    = total_files_uploaded stats + len (flat_map call_ids new) /\
    failed_zips stats'
    = failed_zips stats
      ++ map invalid_zip
           (filter (fun z => negb (validate_zip_file z)) zip_paths)
      ++ raised /\
    len raised <= total_errors stats' - total_errors stats /\
    Forall (fun f => In (fst f) valid) raised /\
    ((forall o, py_print o = None) ->
     raised = [] /\
     (flat_map call_ids new <> [] ->
      total_zips_processed stats < total_zips_processed stats')).
Proof.
  unfold process_zip_files, validate_zip_files. cbn [now].
  match goal with |- context [fold_left ?f zip_paths ([], ?s)] =>
    pose proof (validate_zip_files_fold zip_paths [] s) as Hv;
    change (fold_left f zip_paths ([], s))
      with (fold_left
              (fun '(valid_zips, stats) zip_path =>
                 if validate_zip_file zip_path
                 then (valid_zips ++ [zip_path], stats)
                 else (valid_zips,
                       mkStats (total_zips_processed stats)
                         (total_files_uploaded stats) (total_errors stats)
                         (start_time stats) (end_time stats)
                         (failed_zips stats ++ [invalid_zip zip_path])
                         (uploaded_files stats)))
              zip_paths ([], s))
  end.
  destruct (fold_left _ zip_paths _) as [valid stats1].
  cbn [app failed_zips total_zips_processed total_files_uploaded
       total_errors start_time end_time uploaded_files] in Hv.
  destruct Hv as (-> & Hf & Hz & Ht & He & Hs & Hen & Hu).
  destruct (filter validate_zip_file zip_paths) as [|v valid] eqn:Ev.
  - cbv zeta. cbn [conn net calls].
    split; [reflexivity|]. split; [reflexivity|]. split; [exact Hs|].
    split; [lia|]. split; [lia|]. split; [cbn; lia|].
    split; [intros _; repeat split; assumption || reflexivity|].
    exists [], []. rewrite !app_nil_r. cbn [flat_map].
    split; [reflexivity|]. split; [cbn; lia|]. split; [constructor|].
    split; [exact Hu|]. split; [cbn; lia|]. split; [exact Hf|].
    split; [cbn; lia|]. split; [constructor|].
    intros _. split; [reflexivity | congruence].
  - pose proof (process_zip_files_loop (v :: valid) stats1
                  (mkWorld (conn w) (server w) (calls w) (net w)
                           (S (reads w)))) as Hl.
    destruct (fold_left _ (v :: valid) _) as [stats2 w2].
    cbn [now conn server calls net reads] in *. cbv zeta.
    destruct Hl as (Hc2 & Hn2 & Hs2 & Hen2 & Hz2 & He2 & Hsum
                    & new & raised & Hcalls & Hlen & Hfl & Hu2 & Ht2
                    & Hf2 & Hlr & Hin & Hq).
    cbn [conn net calls start_time end_time failed_zips
         total_zips_processed total_errors uploaded_files
         total_files_uploaded].
    split; [exact Hc2|]. split; [exact Hn2|]. split; [congruence|].
    split; [lia|]. split; [lia|]. split; [lia|].
    split; [discriminate|].
    exists new, raised. rewrite <- Hu, <- Ht, <- Hz, <- He.
    split; [exact Hcalls|]. split; [exact Hlen|]. split; [exact Hfl|].
    split; [exact Hu2|]. split; [exact Ht2|].
    split; [rewrite Hf2, Hf, <- app_assoc; reflexivity|].
    split; [exact Hlr|]. split; [exact Hin|]. exact Hq.
Qed.

(** X15. Every path given to [process_zip_files] is accounted for.  The
    invalid paths are listed in [failed_zips], in the order given; each
    valid path is counted exactly once, as processed or as an error.  The
    only other entries added to [failed_zips] come from the exception
    handler of [process_single_zip]: each names a valid archive and goes
    with an archive counted as an error, and there is none when printing
    never raises. *)
Theorem every_archive_is_accounted_for (zip_paths : list string)
    (stats : Stats) (w : World Doc St) :
  let '(stats', w') :=
    process_zip_files Doc St insert_many clock validate_zip_file
                      process_zip_file update py_print zip_paths
                      (stats, w) in
  let valid := filter validate_zip_file zip_paths in
  let invalid := filter (fun z => negb (validate_zip_file z)) zip_paths in
  total_zips_processed stats <= total_zips_processed stats' /\
  total_errors stats <= total_errors stats' /\
  (total_zips_processed stats' - total_zips_processed stats)
  + (total_errors stats' - total_errors stats) = len valid /\
  len valid + len invalid = len zip_paths /\
  exists raised : list (string * string),
    failed_zips stats'
    = failed_zips stats
      ++ map (fun z => (z, "Archivo ZIP inválido o corrupto")) invalid
      ++ raised /\
    len raised <= total_errors stats' - total_errors stats /\
    Forall (fun f => In (fst f) valid) raised /\
    ((forall o, py_print o = None) -> raised = []).
Proof.
  pose proof (process_zip_files_effect zip_paths stats w) as H.
  destruct (process_zip_files _ _ _ _ _ _ _ _ _ _) as [stats' w'].
  cbv zeta in *.
  destruct H as (_ & _ & _ & Hz & He & Hsum & _
                 & new & raised & _ & _ & _ & _ & _ & Hf & Hlr & Hin & Hq).
  split; [exact Hz|]. split; [exact He|]. split; [lia|].
  split; [apply filter_split_len|].
  exists raised. split; [exact Hf|]. split; [exact Hlr|].
  split; [exact Hin|]. intros Hp. apply Hq, Hp.
Qed.

(** X16. The upload counters follow the store: the ids appended to
    [uploaded_files] are exactly the ids the store returned to the calls
    of [process_zip_files], in order, and [total_files_uploaded] grows by
    their number, also when an archive then ends in the exception
    handler.  When printing never raises, any id appended means that at
    least one archive was counted as processed. *)
Theorem uploads_are_counted_and_imply_success (zip_paths : list string)
    (stats : Stats) (w : World Doc St) :
  let '(stats', w') :=
    process_zip_files Doc St insert_many clock validate_zip_file
                      process_zip_file update py_print zip_paths
                      (stats, w) in
  exists new : list (Call Doc),
    calls w' = calls w ++ new /\
    uploaded_files stats' = uploaded_files stats ++ flat_map call_ids new /\
    total_files_uploaded stats'
    = total_files_uploaded stats + len (flat_map call_ids new) /\
    ((forall o, py_print o = None) ->
     flat_map call_ids new <> [] ->
     total_zips_processed stats < total_zips_processed stats').
Proof.
  pose proof (process_zip_files_effect zip_paths stats w) as H.
  destruct (process_zip_files _ _ _ _ _ _ _ _ _ _) as [stats' w'].
  cbv zeta in H.
  destruct H as (_ & _ & _ & _ & _ & _ & _
                 & new & raised & Hc & _ & _ & Hu & Ht & _ & _ & _ & Hq).
  exists new. split; [exact Hc|]. split; [exact Hu|]. split; [exact Ht|].
  intros Hp. apply (Hq Hp).
Qed.

(** X17. [process_zip_files] calls the store at most once per valid archive,
    always in ordered mode with validation on and never with an empty
    list; it sends nothing else over the network and leaves the
    connection object alone. *)
Theorem one_ordered_write_per_archive (zip_paths : list string)
    (stats : Stats) (w : World Doc St) :
  let '(stats', w') :=
    process_zip_files Doc St insert_many clock validate_zip_file
                      process_zip_file update py_print zip_paths
                      (stats, w) in
  conn w' = conn w /\ net w' = net w /\
  exists new : list (Call Doc),
    calls w' = calls w ++ new /\
    len new <= len (filter validate_zip_file zip_paths) /\
    Forall (fun c => call_ordered c = true /\ call_bypass c = false /\
                     call_batch c <> []) new.
Proof.
  pose proof (process_zip_files_effect zip_paths stats w) as H.
  destruct (process_zip_files _ _ _ _ _ _ _ _ _ _) as [stats' w'].
  cbv zeta in H.
  destruct H as (Hc & Hn & _ & _ & _ & _ & _
                 & new & raised & Hl & Hlen & Hfl & _).
  split; [exact Hc|]. split; [exact Hn|].
  exists new. repeat split; assumption.
Qed.

(** X18. When no archive is valid, [process_zip_files] writes nothing, counts
    nothing and lists every path in [failed_zips]; it returns before
    [end_time] is stamped, so on fresh stats the summary has no
    duration. *)
Theorem no_valid_archive_no_duration (zip_paths : list string)
    (stats : Stats) (w : World Doc St) :
  Forall (fun z => validate_zip_file z = false) zip_paths ->
  end_time stats = None ->
  let '(stats', w') :=
    process_zip_files Doc St insert_many clock validate_zip_file
                      process_zip_file update py_print zip_paths
                      (stats, w) in
  calls w' = calls w /\
  total_zips_processed stats' = total_zips_processed stats /\
  total_errors stats' = total_errors stats /\
  failed_zips stats'
  = failed_zips stats
    ++ map (fun z => (z, "Archivo ZIP inválido o corrupto")) zip_paths /\
  start_time stats' = Some (clock (reads w)) /\
  Report.duration_seconds (Report.get_processing_summary stats') = None.
Proof.
  intros Hall Hend.
  assert (Hv : filter validate_zip_file zip_paths = []).
  { induction Hall as [|z l Hz _ IH]; [reflexivity|].
    cbn [filter]. now rewrite Hz. }
  assert (Hi : filter (fun z => negb (validate_zip_file z)) zip_paths
               = zip_paths).
  { induction Hall as [|z l Hz _ IH]; [reflexivity|].
    cbn [filter] in *. rewrite Hz in *. cbn [negb]. f_equal. apply IH.
    exact Hv. }
  pose proof (process_zip_files_effect zip_paths stats w) as H.
  destruct (process_zip_files _ _ _ _ _ _ _ _ _ _) as [stats' w'].
  cbv zeta in H. rewrite Hv, Hi in H.
  destruct H as (_ & _ & Hs & Hz & He & Hsum & Hnone & _).
  destruct (Hnone eq_refl) as (Hen & Hc & Hf).
  unfold len in Hsum. cbn [List.length Z.of_nat] in Hsum.
  repeat (split; [assumption || lia|]).
  unfold Report.get_processing_summary. cbn [Report.duration_seconds].
  rewrite Hs, Hen, Hend. reflexivity.
Qed.

End DriverAccounting.

(** ** Archives without files *)

Section EmptyArchives.
Import Mongo Driver.
Context {Doc St : Type}.
Variable insert_many : InsertMany Doc St.
Variable clock : nat -> Q.
Variable mongo_client : string -> option exn.
Variable ping : St -> option exn.
Variable validate_zip_file : string -> bool.
Variable process_zip_file : string -> option (list Doc).
Variable update : string -> Q -> Q -> Doc -> Doc.
Variable py_print : Output -> option exn.



End EmptyArchives.

(** ** Loading JSON files *)

Section FilesFacts.
Import Mongo Loader Log Files Partitioner.
Context {Doc St : Type}.
Variable insert_many : InsertMany Doc St.
Variable clock : nat -> Q.
Variable read_file : string -> FileRead Doc.
Variable basename : string -> string.
Variable getsize : string -> Z.
Variable update : Doc -> string -> Q -> Z -> Doc.
Variable raw_document : string -> string -> Q -> Z -> Doc.

Lemma stamp_effect (file_path : string) (documents : list Doc)
    (w : World Doc St) (item : Doc) :
  let '(documents', w') :=
    stamp clock basename getsize update file_path (documents, w) item in
  exists d, documents' = documents ++ [d] /\ reads_only 1 w w'.
Proof.
  unfold stamp. cbn [now]. eexists. split; [reflexivity|].
  unfold reads_only. cbn. repeat split; lia.
Qed.

Lemma items_effect (file_path : string) (items : list (option Doc)) :
  forall documents (w : World Doc St),
    let '(documents', w') :=
      fold_left
        (fun st item =>
           match item with
           | Some d =>
               stamp clock basename getsize update file_path st d
           | None => st
           end)
        items (documents, w) in
    exists added,
      documents' = documents ++ added /\
      len added = documents_in (Parsed (JList items)) /\
      reads_only (len added) w w'.
Proof.
  induction items as [|item rest IH]; intros documents w.
  - cbn [fold_left]. exists []. rewrite app_nil_r. unfold reads_only.
    cbn. repeat split; lia.
  - cbn [fold_left]. destruct item as [d|].
    + pose proof (stamp_effect file_path documents w d) as Hs.
      destruct (stamp _ _ _ _ _ _ d) as [documents1 w1].
      destruct Hs as (d' & -> & Hr1).
      specialize (IH (documents ++ [d']) w1).
      destruct (fold_left _ rest _) as [documents' w'].
      destruct IH as (added & -> & Hlen & Hr).
      exists (d' :: added). rewrite <- app_assoc. split; [reflexivity|].
      cbn [documents_in filter] in *. rewrite !len_cons.
      unfold reads_only in *. split; [lia|].
      intuition (try congruence; try lia).
    + specialize (IH documents w).
      destruct (fold_left _ rest _) as [documents' w'].
      exact IH.
Qed.

Lemma read_one_effect (file_path : string) (documents : list Doc)
    (w : World Doc St) :
  let '(documents', w') :=
    read_one clock read_file basename getsize update raw_document
             (documents, w) file_path in
  exists added,
    documents' = documents ++ added /\
    len added = documents_in (read_file file_path) /\
    reads_only (len added) w w'.
Proof.
  unfold read_one.
  destruct (read_file file_path) as [e | [items | d |] | content].
  - exists []. rewrite app_nil_r. unfold reads_only. cbn.
    repeat split; lia.
  - apply items_effect.
  - pose proof (stamp_effect file_path documents w d) as Hs.
    destruct (stamp _ _ _ _ _ _ d) as [documents1 w1].
    destruct Hs as (d' & -> & Hr). exists [d']. repeat split; apply Hr.
  - exists []. rewrite app_nil_r. unfold reads_only. cbn.
    repeat split; lia.
  - cbn [now]. eexists [_]. split; [reflexivity|].
    unfold reads_only. cbn. repeat split; lia.
Qed.

Lemma read_all_effect (file_paths : list string) :
  forall documents (w : World Doc St),
    let '(documents', w') :=
      fold_left
        (read_one clock read_file basename getsize update raw_document)
        file_paths (documents, w) in
    exists added,
      documents' = documents ++ added /\
      len added
      = sum (map (fun p => documents_in (read_file p)) file_paths) /\
      reads_only (len added) w w'.
Proof.
  induction file_paths as [|p rest IH]; intros documents w.
  - cbn [fold_left]. exists []. rewrite app_nil_r. unfold reads_only.
    cbn. repeat split; lia.
  - cbn [fold_left map].
    pose proof (read_one_effect p documents w) as H1.
    destruct (read_one _ _ _ _ _ _ _ p) as [documents1 w1].
    destruct H1 as (added1 & -> & Hlen1 & Hr1).
    specialize (IH (documents ++ added1) w1).
    destruct (fold_left _ rest _) as [documents' w'].
    destruct IH as (added2 & -> & Hlen2 & Hr2).
    exists (added1 ++ added2). rewrite <- app_assoc.
    split; [reflexivity|]. rewrite len_app, sum_cons.
    unfold reads_only in *. split; [lia|].
    intuition (try congruence; try lia).
Qed.

(** X20. When no file yields a document (unreadable files, JSON that is
    neither an object nor a list, lists without objects),
    [load_json_files_optimized] returns its own error message and leaves
    the loader, the store and the clock untouched. *)
Theorem load_json_files_nothing_found (self : OptimizedBulkLoader)
    (file_paths : list string) (w : World Doc St) :
  Forall (fun p => documents_in (read_file p) = 0) file_paths ->
  load_json_files_optimized insert_many clock read_file basename getsize
    update raw_document self file_paths w
  = (mkResult 0 [Message "No se encontraron documentos válidos"] None,
     self, w).
Proof.
  intros Hall. unfold load_json_files_optimized.
  pose proof (read_all_effect file_paths [] w) as H.
  destruct (fold_left _ file_paths _) as [documents w'].
  destruct H as (added & -> & Hlen & Hr).
  assert (Hz : sum (map (fun p => documents_in (read_file p)) file_paths)
               = 0).
  { clear Hlen Hr. induction Hall as [|p l Hp _ IH]; [reflexivity|].
    cbn [map]. rewrite sum_cons, Hp, IH. reflexivity. }
  rewrite Hz in Hlen. destruct added as [|d added].
  2:{ rewrite len_cons in Hlen. unfold len in Hlen. lia. }
  cbn [app]. f_equal.
  destruct Hr as (Hc & Hs & Hl & Hn & Hrd).
  destruct w, w'. cbn in *. f_equal; try assumption. lia.
Qed.

(** X21. With a positive batch size and a connected collection, every document
    the files yield is submitted exactly once and in order: the batches
    sent to the store concatenate to a list with one document per JSON
    object found (one per object of a list, one for a single object, one
    for a file that is not JSON); unreadable files cost nothing else.
    Every call is unordered and bypasses validation. *)
Theorem load_json_files_submits_every_document
    (self : OptimizedBulkLoader) (file_paths : list string)
    (w : World Doc St) :
  0 < batch_size self ->
  collection (conn w) <> None ->
  let '(res, self', w') :=
    load_json_files_optimized insert_many clock read_file basename getsize
      update raw_document self file_paths w in
  exists new : list (Call Doc),
    calls w' = calls w ++ new /\
    len (List.concat (map call_batch new))
    = sum (map (fun p => documents_in (read_file p)) file_paths) /\
    Forall (fun c => call_ordered c = false /\ call_bypass c = true) new.
Proof.
  intros HB Hc. unfold load_json_files_optimized.
  pose proof (read_all_effect file_paths [] w) as H.
  destruct (fold_left _ file_paths _) as [documents w1].
  destruct H as (added & -> & Hlen & Hr). cbn [app].
  destruct Hr as (Hconn & Hs & Hl & Hn & Hrd).
  destruct added as [|d added].
  - exists []. rewrite app_nil_r. cbn [map List.concat].
    repeat split; [assumption | exact Hlen | constructor].
  - rewrite (bulk_insert_optimized_normal insert_many clock self
               (d :: added) false true w1 _)
      by (congruence || lia || (apply chunk_documents_windows; assumption)).
    cbv zeta. cbn [calls]. eexists. rewrite Hl.
    split; [reflexivity|]. split.
    + rewrite serve_batches, windows_cover by assumption. exact Hlen.
    + pose proof (serve_forall insert_many (fun _ => True) false true) as F.
      eapply Forall_impl; [|apply F; apply Forall_forall; intros; exact I].
      cbn. tauto.
Qed.

End FilesFacts.

(** ** The ZIP extractor *)

Section ExtractorFacts.
Import Extractor.
Variable infolist : string -> Exc (list ZipEntry).
Variable getsize : string -> Exc Z.
Variable path_exists : string -> bool.
Variable stat : string -> Exc FileStat.
Variable guess_type : string -> option string.
Variable read_text : string -> Exc string.
Variable sha256 : string -> Exc string.
Variable isoformat : Q -> Exc string.
Variable basename : string -> string.
Variable suffix_lower : string -> string.
Variable relpath : string -> string -> Exc string.
Variable walk : string -> list string.
Variable round : Q -> Z -> Q.
Variable clock : nat -> Q.

(** X22. [get_zip_info] fails only when the archive cannot be listed or its
    size cannot be read, never through its own division.  When it
    succeeds, [total_files] is the length of [file_list], both leave the
    directory entries out, and the compression ratio is 0 as soon as the
    files' total size is not positive. *)
Theorem get_zip_info_totals (path : string) :
  match get_zip_info infolist getsize basename round path with
  | None => raises (infolist path) = true \/ raises (getsize path) = true
  | Some info =>
      exists entries,
        infolist path = Ret entries /\
        getsize path = Ret (zip_size_bytes info) /\
        file_list info
        = map filename (filter (fun e => negb (is_dir e)) entries) /\
        total_files info = len (file_list info) /\
        total_uncompressed_size info
        = fold_right Z.add 0
            (map file_size (filter (fun e => negb (is_dir e)) entries)) /\
        (total_uncompressed_size info <= 0 ->
         compression_ratio info = 0%Q)
  end.
Proof.
  unfold get_zip_info.
  destruct (infolist path) as [entries|e]; [|left; reflexivity].
  destruct (getsize path) as [size|e]; [|right; reflexivity].
  set (total := fold_right Z.add 0 (map file_size (files_only entries))).
  destruct (0 <? total) eqn:E.
  - apply Z.ltb_lt in E. unfold py_truediv.
    rewrite inject_Z_nonzero by lia. cbn [bind].
    exists entries. cbn. unfold len. rewrite length_map.
    repeat split; try reflexivity. fold total. lia.
  - exists entries. cbn. unfold len. rewrite length_map.
    repeat split; reflexivity.
Qed.

(** What a successful [get_file_metadata] returned. *)
Lemma get_file_metadata_some (path : string) (relative_path : option string)
    (reads : nat) (m : Metadata) :
  fst (get_file_metadata path_exists stat guess_type read_text sha256
         isoformat basename suffix_lower round clock path relative_path
         reads) = Some m ->
  path_exists path = true /\
  (exists st, stat path = Ret st /\ file_size_bytes m = st_size st) /\
  file_name m = basename path /\
  file_path m = or_else relative_path path /\
  mime_type m = guess_type path /\
  is_text_file m = is_text (mime_type m) /\
  processed_date m = clock reads /\
  (forall c, content m = Some c ->
             read_text path = Ret c /\
             is_text_file m = true /\
             file_size_bytes m < 1024 * 1024).
Proof.
  unfold get_file_metadata.
  destruct (path_exists path); cbn [negb fst]; [|discriminate].
  destruct (stat path) as [st|e]; cbn [fst]; [|discriminate].
  destruct (isoformat (st_ctime st)) as [created|e]; cbn [fst];
    [|discriminate].
  destruct (isoformat (st_mtime st)) as [modified|e]; cbn [fst];
    [|discriminate].
  intros [= <-]. cbn.
  repeat split; try reflexivity; eauto.
  - destruct (is_text (guess_type path) && (st_size st <? 1048576));
      [|discriminate].
    destruct (read_text path); congruence.
  - destruct (is_text (guess_type path)); [reflexivity|].
    cbn in H. discriminate.
  - destruct (is_text (guess_type path)); cbn in H; [|discriminate].
    destruct (st_size st <? 1048576) eqn:E; [|discriminate].
    apply Z.ltb_lt in E. exact E.
Qed.

Lemma get_file_metadata_reads (path : string) (relative_path : option string)
    (reads : nat) :
  let '(m, reads') :=
    get_file_metadata path_exists stat guess_type read_text sha256
      isoformat basename suffix_lower round clock path relative_path
      reads in
  reads' = match m with Some _ => S reads | None => reads end.
Proof.
  unfold get_file_metadata.
  destruct (path_exists path); cbn [negb]; [|reflexivity].
  destruct (stat path) as [st|e]; [|reflexivity].
  destruct (isoformat (st_ctime st)); [|reflexivity].
  destruct (isoformat (st_mtime st)); reflexivity.
Qed.

(** Where every yielded entry comes from. *)
Lemma process_files_origin (max_bytes : Z) (extract_folder : string)
    (files : list string) :
  forall (reads : nat) (m : Metadata),
    In m (fst (process_files getsize path_exists stat guess_type read_text
                 sha256 isoformat basename suffix_lower relpath round clock
                 max_bytes extract_folder files reads)) ->
    exists path size relative_path r,
      In path files /\
      getsize path = Ret size /\ size <= max_bytes /\
      relpath path extract_folder = Ret relative_path /\
      fst (get_file_metadata path_exists stat guess_type read_text sha256
             isoformat basename suffix_lower round clock path
             (Some relative_path) r) = Some m.
Proof.
  induction files as [|path rest IH]; intros reads m; cbn [process_files].
  - intros [].
  - destruct (getsize path) as [size|e] eqn:Eg; [|intros []].
    destruct (max_bytes <? size) eqn:Em.
    { intros Hin. destruct (IH _ _ Hin) as (p & s & rp & r & Hp & H).
      exists p, s, rp, r. split; [right; exact Hp | exact H]. }
    apply Z.ltb_ge in Em.
    destruct (relpath path extract_folder) as [rp|e] eqn:Er; [|intros []].
    destruct (get_file_metadata _ _ _ _ _ _ _ _ _ _ path (Some rp) reads)
      as [[m0|] reads1] eqn:Eq.
    + destruct (process_files _ _ _ _ _ _ _ _ _ _ _ _ _ _ rest reads1)
        as [ms reads2] eqn:Ep.
      cbn [fst]. intros [<- | Hin].
      * exists path, size, rp, reads. rewrite Eq.
        repeat split; try assumption; try reflexivity. now left.
      * specialize (IH reads1 m). rewrite Ep in IH.
        destruct (IH Hin) as (p & s & rp' & r & Hp & H).
        exists p, s, rp', r. split; [right; exact Hp | exact H].
    + intros Hin. destruct (IH _ _ Hin) as (p & s & rp' & r & Hp & H).
      exists p, s, rp', r. split; [right; exact Hp | exact H].
Qed.

(** X23. No file larger than [max_file_size_mb] megabytes is ever yielded:
    each entry comes from a file found by the walk whose size was read
    and is at most [max_file_size_mb * 1024 * 1024] bytes. *)
Theorem oversized_files_are_never_yielded (max_file_size_mb : Z)
    (extract_folder : string) (reads : nat) (m : Metadata) :
  In m (fst (process_extracted_files getsize path_exists stat guess_type
               read_text sha256 isoformat basename suffix_lower relpath
               walk round clock max_file_size_mb extract_folder reads)) ->
  exists path size,
    In path (walk extract_folder) /\
    path_exists path = true /\
    getsize path = Ret size /\
    size <= max_file_size_mb * 1024 * 1024 /\
    file_name m = basename path.
Proof.
  intros Hin. unfold process_extracted_files in Hin.
  destruct (process_files_origin _ _ _ _ _ Hin)
    as (path & size & rp & r & Hp & Hg & Hs & _ & Hm).
  destruct (get_file_metadata_some _ _ _ _ Hm) as (He & _ & Hn & _).
  exists path, size. repeat split; assumption.
Qed.

(** X24. The text of a file is inlined only for a file whose guessed MIME
    type starts with [text/] and whose size is below one mebibyte; every
    other yielded entry has no content, and [is_text_file] always agrees
    with the MIME type. *)
Theorem content_only_for_small_text_files (max_file_size_mb : Z)
    (extract_folder : string) (reads : nat) (m : Metadata) :
  In m (fst (process_extracted_files getsize path_exists stat guess_type
               read_text sha256 isoformat basename suffix_lower relpath
               walk round clock max_file_size_mb extract_folder reads)) ->
  is_text_file m = is_text (mime_type m) /\
  (content m <> None ->
   is_text_file m = true /\ file_size_bytes m < 1024 * 1024) /\
  (is_text_file m = false \/ 1024 * 1024 <= file_size_bytes m ->
   content m = None).
Proof.
  intros Hin. unfold process_extracted_files in Hin.
  destruct (process_files_origin _ _ _ _ _ Hin)
    as (path & size & rp & r & _ & _ & _ & _ & Hm).
  destruct (get_file_metadata_some _ _ _ _ Hm)
    as (_ & _ & _ & _ & _ & Ht & _ & Hc).
  split; [exact Ht|]. split.
  - intros Hne. destruct (content m) as [c|] eqn:E; [|congruence].
    destruct (Hc c eq_refl) as (_ & H1 & H2). split; assumption.
  - intros Hor. destruct (content m) as [c|] eqn:E; [|reflexivity].
    destruct (Hc c eq_refl) as (_ & H1 & H2).
    destruct Hor as [Hf | Hb]; [congruence | lia].
Qed.

(** X25. A failure to read a file's size ends the generator: the files that
    come after it in the walk are not looked at, whatever they are. *)
Theorem size_failure_ends_the_walk (max_bytes : Z) (extract_folder : string)
    (before after : list string) (path : string) (e : exn) (reads : nat) :
  getsize path = Raise e ->
  process_files getsize path_exists stat guess_type read_text sha256
    isoformat basename suffix_lower relpath round clock max_bytes
    extract_folder (before ++ path :: after) reads
  = process_files getsize path_exists stat guess_type read_text sha256
      isoformat basename suffix_lower relpath round clock max_bytes
      extract_folder (before ++ [path]) reads.
Proof.
  intros Hg. revert reads.
  induction before as [|p rest IH]; intros reads; cbn [app process_files].
  - rewrite Hg. reflexivity.
  - destruct (getsize p); [|reflexivity].
    destruct (max_bytes <? a); [apply IH|].
    destruct (relpath p extract_folder); [|reflexivity].
    destruct (get_file_metadata _ _ _ _ _ _ _ _ _ _ p _ reads)
      as [[m0|] reads1]; rewrite IH; reflexivity.
Qed.

End ExtractorFacts.

(** ** The further properties at concrete inputs *)

Section Instances.
Import Mongo Loader Log.

Lemma accept_all_reliable (ordered bypass : bool) (s : nat) (b : list Z) :
  exists ids,
    fst (Simulated.accept_all s b ordered bypass) = InsertManyResult ids /\
    len ids = len b.
Proof.
  eexists. split; [reflexivity|].
  unfold len, Simulated.fresh_ids. now rewrite length_map, length_seq.
Qed.

Lemma accept_all_honest (ordered bypass : bool) (s : nat) (b : list Z) :
  0 <= call_inserted
         (mkCall b ordered bypass
            (fst (Simulated.accept_all s b ordered bypass)))
    <= len b.
Proof.
  unfold call_inserted. cbn. unfold len, Simulated.fresh_ids.
  rewrite length_map, length_seq. lia.
Qed.

End Instances.

(** A load of three documents while no connection was made. *)
Lemma bulk_insert_optimized_not_connected_witness :
  Loader.inserted_count
    (fst (fst (Loader.bulk_insert_optimized Simulated.accept_all
                 Simulated.ticking (Loader.init 2) (Simulated.numbered 3)
                 false true (Simulated.initial (fun _ => None)))))
  = 0.
Proof.
  pose proof (bulk_insert_optimized_not_connected Simulated.accept_all
                Simulated.ticking (Loader.init 2) (Simulated.numbered 3)
                false true (Simulated.initial (fun _ => None))) as H.
  destruct (Loader.bulk_insert_optimized _ _ _ _ _ _ _) as [[res self'] w'].
  destruct H as (-> & _).
  - vm_compute. discriminate.
  - reflexivity.
  - reflexivity.
Defined.

(** A load of three documents with batch size 0. *)
Lemma bulk_insert_optimized_zero_batch_size_witness :
  Mongo.calls
    (snd (Loader.bulk_insert_optimized Simulated.accept_all
            Simulated.ticking (Loader.init 0) (Simulated.numbered 3)
            false true Simulated.connected))
  = [].
Proof.
  pose proof (bulk_insert_optimized_zero_batch_size Simulated.accept_all
                Simulated.ticking (Loader.init 0) (Simulated.numbered 3)
                false true Simulated.connected) as H.
  destruct (Loader.bulk_insert_optimized _ _ _ _ _ _ _) as [[res self'] w'].
  destruct H as (_ & _ & _ & Hc & _).
  - vm_compute. discriminate.
  - vm_compute. discriminate.
  - reflexivity.
  - exact Hc.
Defined.

(** A load of three documents with batch size -5. *)
Lemma bulk_insert_optimized_negative_batch_size_witness :
  Loader.batch_size (Loader.init (-5)) < 0 /\
  Loader.inserted_count
    (fst (fst (Loader.bulk_insert_optimized Simulated.accept_all
                 Simulated.ticking (Loader.init (-5)) (Simulated.numbered 3)
                 false true Simulated.connected)))
  = 0.
Proof.
  split; [reflexivity|].
  pose proof (bulk_insert_optimized_negative_batch_size Simulated.accept_all
                Simulated.ticking (Loader.init (-5)) (Simulated.numbered 3)
                false true Simulated.connected) as H.
  destruct (Loader.bulk_insert_optimized _ _ _ _ _ _ _) as [[res self'] w'].
  destruct H as (-> & _).
  - vm_compute. discriminate.
  - vm_compute. discriminate.
  - reflexivity.
  - reflexivity.
Defined.

(** Seven documents in batches of 3 on a store that accepts everything. *)
Lemma reliable_store_inserts_everything_witness :
  Loader.inserted_count
    (fst (fst (Loader.bulk_insert_optimized Simulated.accept_all
                 Simulated.ticking (Loader.init 3) (Simulated.numbered 7)
                 false true Simulated.connected)))
  = len (Simulated.numbered 7).
Proof.
  pose proof (reliable_store_inserts_everything Simulated.accept_all
                Simulated.ticking false true (Loader.init 3)
                (Simulated.numbered 7) Simulated.connected
                (accept_all_reliable false true)) as H.
  destruct (Loader.bulk_insert_optimized _ _ _ _ _ _ _) as [[res self'] w'].
  destruct H as (Hi & _).
  - reflexivity.
  - vm_compute. discriminate.
  - vm_compute. discriminate.
  - exact Hi.
Defined.

(** The same load, bounded. *)
Lemma inserted_count_is_bounded_witness :
  0 <= Loader.inserted_count
         (fst (fst (Loader.bulk_insert_optimized Simulated.accept_all
                      Simulated.ticking (Loader.init 3)
                      (Simulated.numbered 7) false true
                      Simulated.connected)))
    <= len (Simulated.numbered 7).
Proof.
  apply (inserted_count_is_bounded Simulated.accept_all Simulated.ticking
           false true (Loader.init 3) (Simulated.numbered 7)
           Simulated.connected (accept_all_honest false true)).
Defined.

(** Three documents, then two, with the same loader. *)
Lemma totals_are_per_run_and_batches_accumulate_witness :
  Loader.batch_size (Loader.init 2) <> 0 /\
  let '(res1, self1, w1) :=
    Loader.bulk_insert_optimized Simulated.accept_all Simulated.ticking
      (Loader.init 2) (Simulated.numbered 3) false true
      Simulated.connected in
  let '(res2, self2, w2) :=
    Loader.bulk_insert_optimized Simulated.accept_all Simulated.ticking
      self1 (Simulated.numbered 2) false true w1 in
  Loader.total_inserted (Loader.stats self2) = Loader.inserted_count res2.
Proof.
  assert (H1 : Loader.batch_size (Loader.init 2) <> 0)
    by (vm_compute; discriminate).
  split; [exact H1|].
  pose proof (totals_are_per_run_and_batches_accumulate
                Simulated.accept_all Simulated.ticking (Loader.init 2)
                (Simulated.numbered 3) (Simulated.numbered 2)
                false true false true Simulated.connected H1) as H.
  destruct (Loader.bulk_insert_optimized _ _ _ (Simulated.numbered 3) _ _ _)
    as [[res1 self1] w1].
  destruct (Loader.bulk_insert_optimized _ _ self1 _ _ _ w1)
    as [[res2 self2] w2].
  destruct H as (new1 & new2 & _ & _ & _ & Ht & _).
  - vm_compute. discriminate.
  - vm_compute. discriminate.
  - vm_compute. discriminate.
  - exact Ht.
Defined.

(** The report after a load of three documents. *)
Lemma report_after_a_load_witness :
  exists p,
    Loader.get_performance_stats (fun q _ => q)
      (snd (fst (Loader.bulk_insert_optimized Simulated.accept_all
                   Simulated.ticking (Loader.init 2) (Simulated.numbered 3)
                   false true Simulated.connected)))
    = Ret (inl p).
Proof.
  pose proof (report_after_a_load Simulated.accept_all Simulated.ticking
                (fun q _ => q) (Loader.init 2) (Simulated.numbered 3)
                false true Simulated.connected) as H.
  destruct (Loader.bulk_insert_optimized _ _ _ _ _ _ _) as [[res self'] w'].
  destruct H as (p & Hp & _).
  - vm_compute. discriminate.
  - vm_compute. discriminate.
  - vm_compute. discriminate.
  - exists p. exact Hp.
Defined.

(** [optimized_bulk_insert] with batch size 0. *)
Lemma optimized_bulk_insert_bad_batch_size_witness :
  0 <= 0 /\
  Mongo.calls
    (snd (Cargador.optimized_bulk_insert Simulated.accept_all
            Simulated.ticking (Simulated.numbered 3) 0 Simulated.connected))
  = [].
Proof.
  split; [lia|].
  pose proof (optimized_bulk_insert_bad_batch_size Simulated.accept_all
                Simulated.ticking (Simulated.numbered 3) 0
                Simulated.connected) as H.
  destruct (Cargador.optimized_bulk_insert _ _ _ _ _) as [[r out] w'].
  destruct H as (Hc & _); [lia | exact Hc].
Defined.

(** A first connection with a URI in the environment. *)
Lemma connect_succeeds_iff_collection_is_set_witness :
  Mongo.collection
    (Mongo.conn (Simulated.initial (Doc := Z) Examples.env_with_uri))
  = None /\
  Mongo.calls
    (snd (Driver.connect Examples.client_ok Examples.ping_ok
            (Simulated.initial (Doc := Z) Examples.env_with_uri)))
  = [].
Proof.
  split; [reflexivity|].
  pose proof (connect_succeeds_iff_collection_is_set Examples.client_ok
                Examples.ping_ok
                (Simulated.initial (Doc := Z) Examples.env_with_uri)
                eq_refl) as H.
  destruct (Driver.connect _ _ _) as [ok w'].
  destruct H as (_ & Hc & _). exact Hc.
Defined.

(** Two paths, neither a valid archive. *)
Lemma no_valid_archive_no_duration_witness :
  Driver.end_time Driver.init_stats = None /\
  Mongo.calls
    (snd (Driver.process_zip_files Z nat Simulated.accept_all
            Simulated.ticking (fun _ => false) (fun _ => None)
            (fun _ _ _ d => d) Examples.console_ok ["a.zip"; "b.zip"]
            (Driver.init_stats, Simulated.connected)))
  = [].
Proof.
  split; [reflexivity|].
  pose proof (no_valid_archive_no_duration (Doc := Z) Simulated.accept_all
                Simulated.ticking (fun _ => false) (fun _ => None)
                (fun _ _ _ d => d) Examples.console_ok ["a.zip"; "b.zip"]
                Driver.init_stats Simulated.connected) as H.
  destruct (Driver.process_zip_files _ _ _ _ _ _ _ _ _ _) as [stats' w'].
  destruct H as (Hc & _).
  - repeat constructor.
  - reflexivity.
  - exact Hc.
Defined.


(** Two files, neither readable. *)
Lemma load_json_files_nothing_found_witness :
  Forall (fun p => Files.documents_in (Examples.no_files p) = 0)
         ["a.json"; "b.json"] /\
  Files.load_json_files_optimized Simulated.accept_all Simulated.ticking
    Examples.no_files (fun p => p) (fun _ => 10) (fun d _ _ _ => d)
    (fun _ _ _ _ => 99) (Loader.init 2) ["a.json"; "b.json"]
    Simulated.connected
  = (Loader.mkResult 0
       [Loader.Message "No se encontraron documentos válidos"] None,
     Loader.init 2, Simulated.connected).
Proof.
  assert (H : Forall (fun p => Files.documents_in (Examples.no_files p) = 0)
                     ["a.json"; "b.json"])
    by (repeat constructor).
  split; [exact H|].
  apply (load_json_files_nothing_found Simulated.accept_all
           Simulated.ticking Examples.no_files (fun p => p) (fun _ => 10)
           (fun d _ _ _ => d) (fun _ _ _ _ => 99) (Loader.init 2)
           ["a.json"; "b.json"] Simulated.connected H).
Defined.

(** A JSON list, a missing file and a text file. *)
Lemma load_json_files_submits_every_document_witness :
  0 < Loader.batch_size (Loader.init 2) /\
  exists new : list (Mongo.Call Z),
    Mongo.calls
      (snd (Files.load_json_files_optimized Simulated.accept_all
              Simulated.ticking Examples.json_files (fun p => p)
              (fun _ => 10) (fun d _ _ _ => d) (fun _ _ _ _ => 99)
              (Loader.init 2) ["lista.json"; "nada"; "notas.txt"]
              Simulated.connected))
    = new /\
    len (List.concat (map Mongo.call_batch new)) = 3.
Proof.
  split; [reflexivity|].
  pose proof (load_json_files_submits_every_document Simulated.accept_all
                Simulated.ticking Examples.json_files (fun p => p)
                (fun _ => 10) (fun d _ _ _ => d) (fun _ _ _ _ => 99)
                (Loader.init 2) ["lista.json"; "nada"; "notas.txt"]
                Simulated.connected) as H.
  destruct (Files.load_json_files_optimized _ _ _ _ _ _ _ _ _ _)
    as [[res self'] w'].
  destruct H as (new & Hc & Hlen & _).
  - reflexivity.
  - vm_compute. discriminate.
  - exists new. split; [exact Hc | exact Hlen].
Defined.

(** The folder of [Examples]: only the small text file is yielded. *)
Lemma oversized_files_are_never_yielded_witness :
  exists path size,
    In path (Examples.folder "tmp") /\
    Examples.size_of path = Ret size /\
    size <= 50 * 1024 * 1024 /\
    Extractor.file_name Examples.leeme = path.
Proof.
  destruct (oversized_files_are_never_yielded Examples.size_of
              (fun _ => true) Examples.stat_of Examples.mime_of
              (fun _ => Ret "hola") (fun _ => Ret "e3b0")
              (fun _ => Ret "1970-01-01T00:00:00") (fun p => p)
              (fun _ => ".txt") (fun p _ => Ret p) Examples.folder
              (fun q _ => q) Simulated.frozen 50 "tmp" 0%nat Examples.leeme)
    as (path & size & H1 & _ & H3 & H4 & H5).
  - vm_compute. left. reflexivity.
  - exists path, size. repeat split; assumption.
Defined.

(** The entry yielded for the small text file carries its text. *)
Lemma content_only_for_small_text_files_witness :
  Extractor.content Examples.leeme <> None /\
  Extractor.is_text_file Examples.leeme = true /\
  Extractor.file_size_bytes Examples.leeme < 1024 * 1024.
Proof.
  assert (Hc : Extractor.content Examples.leeme <> None)
    by (vm_compute; discriminate).
  split; [exact Hc|].
  destruct (content_only_for_small_text_files Examples.size_of
              (fun _ => true) Examples.stat_of Examples.mime_of
              (fun _ => Ret "hola") (fun _ => Ret "e3b0")
              (fun _ => Ret "1970-01-01T00:00:00") (fun p => p)
              (fun _ => ".txt") (fun p _ => Ret p) Examples.folder
              (fun q _ => q) Simulated.frozen 50 "tmp" 0%nat Examples.leeme)
    as (_ & H & _).
  - vm_compute. left. reflexivity.
  - exact (H Hc).
Defined.

(** The file whose size cannot be read hides the text file after it. *)
Lemma size_failure_ends_the_walk_witness :
  Examples.size_of "roto.dat" = Raise (Exception "I/O error") /\
  Extractor.process_files Examples.size_of
    (fun _ => true) Examples.stat_of Examples.mime_of
    (fun _ => Ret "hola") (fun _ => Ret "e3b0")
    (fun _ => Ret "1970-01-01T00:00:00") (fun p => p)
    (fun _ => ".txt") (fun p _ => Ret p) (fun q _ => q) Simulated.frozen
    (50 * 1024 * 1024) "tmp"
    (["leeme.txt"; "video.bin"] ++ "roto.dat" :: ["otro.txt"]) 0%nat
  = Extractor.process_files Examples.size_of
      (fun _ => true) Examples.stat_of Examples.mime_of
      (fun _ => Ret "hola") (fun _ => Ret "e3b0")
      (fun _ => Ret "1970-01-01T00:00:00") (fun p => p)
      (fun _ => ".txt") (fun p _ => Ret p) (fun q _ => q) Simulated.frozen
      (50 * 1024 * 1024) "tmp"
      (["leeme.txt"; "video.bin"] ++ ["roto.dat"]) 0%nat.
Proof.
  split; [reflexivity|].
  apply (size_failure_ends_the_walk Examples.size_of
           (fun _ => true) Examples.stat_of Examples.mime_of
           (fun _ => Ret "hola") (fun _ => Ret "e3b0")
           (fun _ => Ret "1970-01-01T00:00:00") (fun p => p)
           (fun _ => ".txt") (fun p _ => Ret p) (fun q _ => q)
           Simulated.frozen (50 * 1024 * 1024) "tmp"
           ["leeme.txt"; "video.bin"] ["otro.txt"] "roto.dat"
           (Exception "I/O error") 0%nat).
  reflexivity.
Defined.

(** ** The counter of clean batches *)

Section BatchCounter.
Import Mongo Loader Log Partitioner.
Context {Doc St : Type}.
Variable insert_many : InsertMany Doc St.
Variable clock : nat -> Q.


End BatchCounter.

